(** * Hybrid periodic system (Galactic-Elements, v6): a shallow embedding

    This development models [src/Galactic-Elements/v6_HybridPeriodicSystem.py]:
    the classifier [_determine_element_type], the allocator and metric
    synthesis [_calculate_energy_profile], the signature
    [_generate_energy_signature], the element table [ELEMENTS_DATA] and the
    factory [HybridElementFactory.create_element].

    Python floats are IEEE-754 binary64 numbers; they are modelled with the
    Gallina specification of binary floating point ([SpecFloat], precision 53,
    maximal exponent 1024), so every [int(total * 0.55)] below is computed
    with the same rounding as CPython.  Python exceptions are modelled by a
    small error monad [result]. *)

From Stdlib Require Import ZArith Bool List String Ascii Lia.
From Stdlib Require Import Floats.SpecFloat Numbers.DecimalString.
Import ListNotations.
Open Scope Z_scope.

(** ** Python exceptions and the error monad *)

Inductive exn : Type :=
| ZeroDivisionError
| OverflowError
| ValueError
| KeyError.

Inductive result (A : Type) : Type :=
| Ok (a : A)
| Err (e : exn).
Arguments Ok {A} a.
Arguments Err {A} e.

Definition bind {A B : Type} (c : result A) (k : A -> result B) : result B :=
  match c with
  | Ok a => k a
  | Err e => Err e
  end.

Notation "'let*' x ':=' c 'in' k" := (bind c (fun x => k))
  (at level 200, x name, c at level 100, k at level 200).

(** ** Python floats (binary64) *)

Module PyFloat.
Definition prec : Z := 53.
Definition emax : Z := 1024.
Definition t := spec_float.

Definition zero : t := S754_zero false.

(** [float(z)] for an integer [z], correctly rounded. *)
Definition of_int (z : Z) : t := binary_normalize prec emax z 0 false.

Definition mul (x y : t) : t := SFmul prec emax x y.
Definition add (x y : t) : t := SFadd prec emax x y.
Definition sub (x y : t) : t := SFsub prec emax x y.
Definition div (x y : t) : t := SFdiv prec emax x y.
Definition leb (x y : t) : bool := SFleb x y.

(** A decimal literal [n / 10^k] of the source, e.g. [0.55] is [lit 55 2].
    CPython parses a literal to the correctly rounded binary64 value, which
    is the correctly rounded quotient of the exact floats [n] and [10^k]
    (both are exact for the literals of this program). *)
Definition lit (n : Z) (k : nat) : t := div (of_int n) (of_int (10 ^ Z.of_nat k)).

Definition is_zero (x : t) : bool :=
  match x with S754_zero _ => true | _ => false end.
End PyFloat.

Abbreviation float := PyFloat.t.
Abbreviation lit := PyFloat.lit.

(** [float(z)] raises [OverflowError] for integers beyond the float range. *)
Definition int_to_float (z : Z) : result float :=
  match PyFloat.of_int z with
  | S754_infinity _ => Err OverflowError
  | f => Ok f
  end.

(** [int * float]: the integer is converted, then multiplied. *)
Definition int_mul_float (z : Z) (f : float) : result float :=
  let* x := int_to_float z in Ok (PyFloat.mul x f).

(** [int(f)]: truncation toward zero; infinities raise [OverflowError] and
    NaN raises [ValueError]. *)
Definition py_int (f : float) : result Z :=
  match f with
  | S754_zero _ => Ok 0
  | S754_infinity _ => Err OverflowError
  | S754_nan => Err ValueError
  | S754_finite s m e =>
      let a := if 0 <=? e then Z.pos m * 2 ^ e else Z.pos m / 2 ^ (- e) in
      Ok (if s then - a else a)
  end.

(** [a / b] on two integers (true division): [ZeroDivisionError] when
    [b = 0], otherwise the rounded quotient. *)
Definition int_truediv (a b : Z) : result float :=
  if b =? 0 then Err ZeroDivisionError
  else let* x := int_to_float a in let* y := int_to_float b in Ok (PyFloat.div x y).

(** [x / y] on floats: [ZeroDivisionError] when [y] is a zero. *)
Definition float_div (x y : float) : result float :=
  if PyFloat.is_zero y then Err ZeroDivisionError else Ok (PyFloat.div x y).

(** ** Python strings

    A [str] is modelled by its UTF-8 encoding.  Substring and suffix tests on
    UTF-8 byte strings agree with the same tests on code points, since UTF-8
    is self-synchronising.  [str.lower] is modelled on ASCII letters; no
    other character lower-cases to [p], [s] or a superscript digit, which are
    the only characters the classifier's markers contain. *)

Definition ascii_lower (c : ascii) : ascii :=
  let n := nat_of_ascii c in
  if ((65 <=? n) && (n <=? 90))%nat then ascii_of_nat (n + 32) else c.

Fixpoint py_lower (s : string) : string :=
  match s with
  | EmptyString => EmptyString
  | String c s' => String (ascii_lower c) (py_lower s')
  end.

(** [s.endswith(suffix)] *)
Definition ends_with (suffix s : string) : bool :=
  let n := String.length s in
  let k := String.length suffix in
  (k <=? n)%nat && String.eqb (substring (n - k) k s) suffix.

(** [sub in s] *)
Fixpoint contains (sub s : string) : bool :=
  String.prefix sub s ||
  match s with
  | EmptyString => false
  | String _ s' => contains sub s'
  end.

(** [str(z)] for an integer. *)
Definition py_str_int (z : Z) : string := NilZero.string_of_int (Z.to_int z).

(** ** Dictionaries: association lists in insertion order *)

Section Dict.
Context {K V : Type} (eqb : K -> K -> bool).

Fixpoint dict_get (d : list (K * V)) (k : K) : option V :=
  match d with
  | [] => None
  | (k', v) :: d' => if eqb k k' then Some v else dict_get d' k
  end.

(** [d[k] = v]: overwrite in place, or append a new key. *)
Fixpoint dict_set (d : list (K * V)) (k : K) (v : V) : list (K * V) :=
  match d with
  | [] => [(k, v)]
  | (k', v') :: d' => if eqb k k' then (k', v) :: d' else (k', v') :: dict_set d' k v
  end.

(** [d[k]]: raises [KeyError] when absent. *)
Definition dict_index (d : list (K * V)) (k : K) : result V :=
  match dict_get d k with Some v => Ok v | None => Err KeyError end.

(** [d.get(k, default)] *)
Definition dict_get_default (d : list (K * V)) (k : K) (default : V) : V :=
  match dict_get d k with Some v => v | None => default end.
End Dict.

(** ** Enumerations *)

Inductive EnergyType : Type :=
| HEAT | LIGHT | MAGNETISM | ELECTRICITY | RADIOWAVES
| MICRO_GRAVITY | MACRO_GRAVITY | THERMONUCLEAR | RADIOACTIVITY.

Inductive ElementType : Type :=
| ACTIVE_METALS | MEDIUM_METALS | SEMI_METALS | NON_METALS | INERT_GASES.

Inductive EnergyLevel : Type :=
| LEVEL_1 | LEVEL_2 | LEVEL_3.

Scheme Equality for EnergyType.
Scheme Equality for ElementType.
Scheme Equality for EnergyLevel.

(** [energy.name] *)
Definition energy_name (e : EnergyType) : string :=
  match e with
  | HEAT => "HEAT" | LIGHT => "LIGHT" | MAGNETISM => "MAGNETISM"
  | ELECTRICITY => "ELECTRICITY" | RADIOWAVES => "RADIOWAVES"
  | MICRO_GRAVITY => "MICRO_GRAVITY" | MACRO_GRAVITY => "MACRO_GRAVITY"
  | THERMONUCLEAR => "THERMONUCLEAR" | RADIOACTIVITY => "RADIOACTIVITY"
  end%string.

(** ** Model configuration *)

Definition DOMINANT_ENERGY_TO_TYPE : list (EnergyType * ElementType) :=
  [(MAGNETISM, ACTIVE_METALS); (ELECTRICITY, MEDIUM_METALS);
   (RADIOWAVES, SEMI_METALS); (HEAT, NON_METALS); (LIGHT, INERT_GASES)].

Definition LEVEL_ENERGY_DISTRIBUTION : list (EnergyLevel * float) :=
  [(LEVEL_3, lit 55 2); (LEVEL_2, lit 33 2); (LEVEL_1, lit 12 2)].

Definition FIRST_LEVEL_ENERGY_RATIO : list (EnergyType * float) :=
  [(HEAT, lit 40 2); (LIGHT, lit 30 2); (MAGNETISM, lit 20 2);
   (ELECTRICITY, lit 6 2); (RADIOWAVES, lit 4 2)].

Definition SECOND_LEVEL_ENERGY_RATIO : list (EnergyType * float) :=
  [(THERMONUCLEAR, lit 50 2); (RADIOACTIVITY, lit 30 2); (MICRO_GRAVITY, lit 20 2)].

Definition THIRD_LEVEL_ENERGY_RATIO : list (EnergyType * float) :=
  [(MACRO_GRAVITY, lit 60 2); (MICRO_GRAVITY, lit 25 2); (THERMONUCLEAR, lit 15 2)].

(** ** Data structures (the dataclasses) *)

Record NucleusStructure : Type := {
  protons : Z;
  neutrons : Z;
  stability : float;
  binding_energy : float;
  spin : float;
  magnetic_moment : float
}.

Record ElectronStructure : Type := {
  configuration : string;
  valence_electrons : Z;
  ionization_energy : float;
  electron_affinity : float
}.

(** [EnergyLevelQuanta]; its field [total_quanta] is [level_total_quanta]
    here, since Rocq projections of two records cannot share a name. *)
Record EnergyLevelQuanta : Type := {
  level : EnergyLevel;
  level_total_quanta : Z;
  energy_distribution : list (EnergyType * Z)
}.

Record QuantumEnergyProfile : Type := {
  total_quanta : Z;
  level_quanta : list (EnergyLevel * EnergyLevelQuanta);
  resonance_frequency : float;
  vibrational_coefficient : float
}.

(** [QuantumEnergyProfile()] *)
Definition default_profile : QuantumEnergyProfile :=
  {| total_quanta := 0; level_quanta := [];
     resonance_frequency := PyFloat.zero; vibrational_coefficient := PyFloat.zero |}.

Record HybridElement : Type := {
  name : string;
  symbol : string;
  atomic_number : Z;
  atomic_mass : float;
  nucleus : NucleusStructure;
  electrons : ElectronStructure;
  energy_profile : QuantumEnergyProfile;
  dominant_energy : EnergyType;
  element_type : ElementType;
  energy_signature : string
}.

Definition set_energy_profile (e : HybridElement) (p : QuantumEnergyProfile) : HybridElement :=
  {| name := name e; symbol := symbol e; atomic_number := atomic_number e;
     atomic_mass := atomic_mass e; nucleus := nucleus e; electrons := electrons e;
     energy_profile := p; dominant_energy := dominant_energy e;
     element_type := element_type e; energy_signature := energy_signature e |}.

Definition set_classification (e : HybridElement) (d : EnergyType) (t : ElementType)
  : HybridElement :=
  {| name := name e; symbol := symbol e; atomic_number := atomic_number e;
     atomic_mass := atomic_mass e; nucleus := nucleus e; electrons := electrons e;
     energy_profile := energy_profile e; dominant_energy := d;
     element_type := t; energy_signature := energy_signature e |}.

Definition set_energy_signature (e : HybridElement) (s : string) : HybridElement :=
  {| name := name e; symbol := symbol e; atomic_number := atomic_number e;
     atomic_mass := atomic_mass e; nucleus := nucleus e; electrons := electrons e;
     energy_profile := energy_profile e; dominant_energy := dominant_energy e;
     element_type := element_type e; energy_signature := s |}.

(** ** [_calculate_energy_profile] *)

(** Lines 260-266: the three floors and the reconciliation of their sum,
    returned as [(level_1_quanta, level_2_quanta, level_3_quanta)]. *)
Definition level_floors (total : Z) : result (Z * Z * Z) :=
  let* r3 := dict_index EnergyLevel_beq LEVEL_ENERGY_DISTRIBUTION LEVEL_3 in
  let* f3 := int_mul_float total r3 in
  let* level_3_quanta := py_int f3 in
  let* r2 := dict_index EnergyLevel_beq LEVEL_ENERGY_DISTRIBUTION LEVEL_2 in
  let* f2 := int_mul_float total r2 in
  let* level_2_quanta := py_int f2 in
  let* r1 := dict_index EnergyLevel_beq LEVEL_ENERGY_DISTRIBUTION LEVEL_1 in
  let* f1 := int_mul_float total r1 in
  let* level_1_quanta := py_int f1 in
  Ok (level_1_quanta, level_2_quanta, level_3_quanta).

Definition split_levels (total : Z) : result (Z * Z * Z) :=
  let* floors := level_floors total in
  let '(level_1_quanta, level_2_quanta, level_3_quanta) := floors in
  let total_calculated := level_1_quanta + level_2_quanta + level_3_quanta in
  let level_3_quanta :=
    if negb (total_calculated =? total)
    then level_3_quanta + (total - total_calculated) else level_3_quanta in
  Ok (level_1_quanta, level_2_quanta, level_3_quanta).

(** The loop [for energy, ratio in RATIOS.items():
    level.energy_distribution[energy] = int(q * ratio)]. *)
Fixpoint fill_distribution (q : Z) (ratios : list (EnergyType * float))
    (dist : list (EnergyType * Z)) : result (list (EnergyType * Z)) :=
  match ratios with
  | [] => Ok dist
  | (energy, ratio) :: rest =>
      let* f := int_mul_float q ratio in
      let* n := py_int f in
      fill_distribution q rest (dict_set EnergyType_beq dist energy n)
  end.

Definition make_level (lvl : EnergyLevel) (q : Z) (ratios : list (EnergyType * float))
  : result EnergyLevelQuanta :=
  let* dist := fill_distribution q ratios [] in
  Ok {| level := lvl; level_total_quanta := q; energy_distribution := dist |}.

Definition calculate_energy_profile (self : HybridElement) : result HybridElement :=
  let base_quanta := 1600 in
  let* f := int_mul_float base_quanta (atomic_mass self) in
  let* total := py_int f in
  let* levels := split_levels total in
  let '(level_1_quanta, level_2_quanta, level_3_quanta) := levels in
  let* level1 := make_level LEVEL_1 level_1_quanta FIRST_LEVEL_ENERGY_RATIO in
  let* level2 := make_level LEVEL_2 level_2_quanta SECOND_LEVEL_ENERGY_RATIO in
  let* level3 := make_level LEVEL_3 level_3_quanta THIRD_LEVEL_ENERGY_RATIO in
  let level_quanta := [(LEVEL_1, level1); (LEVEL_2, level2); (LEVEL_3, level3)] in
  let ion := ionization_energy (electrons self) in
  (* the literal [2.417989e14] is the integer 241798900000000 *)
  let resonance := PyFloat.mul ion (lit 241798900000000 0) in
  let a := PyFloat.mul (stability (nucleus self)) (lit 6 1) in
  let* b := int_truediv (level_total_quanta level1) total in
  let* c := float_div ion (lit 24587 3) in
  let vib := PyFloat.add (PyFloat.add a (PyFloat.mul b (lit 2 1))) (PyFloat.mul c (lit 2 1)) in
  Ok (set_energy_profile self
        {| total_quanta := total; level_quanta := level_quanta;
           resonance_frequency := resonance; vibrational_coefficient := vib |}).

(** ** [_determine_element_type] *)

Definition determine_element_type (z : Z) (configuration : string)
  : EnergyType * ElementType :=
  let config := py_lower configuration in
  if z =? 1 then (HEAT, NON_METALS)
  else if ends_with "p⁶" config then (LIGHT, INERT_GASES)
  else if existsb (fun x => contains x config) ["p⁵"; "p⁴"; "p³"]%string
  then (HEAT, NON_METALS)
  else if existsb (fun x => contains x config) ["p¹"; "p²"]%string
  then (RADIOWAVES, SEMI_METALS)
  else if ends_with "s¹" config then (MAGNETISM, ACTIVE_METALS)
  else (ELECTRICITY, MEDIUM_METALS).

Definition determine_element_type_m (self : HybridElement) : HybridElement :=
  let '(d, t) := determine_element_type (atomic_number self) (configuration (electrons self)) in
  set_classification self d t.

(** ** [_generate_energy_signature] *)

Definition SIGNATURE_ORDER : list EnergyType :=
  [HEAT; LIGHT; MAGNETISM; ELECTRICITY; RADIOWAVES].

(** [f"{energy.name[:2]}{quanta}"] for each energy, joined by ["-"]. *)
Definition signature_of_distribution (dist : list (EnergyType * Z)) : string :=
  String.concat "-"
    (map (fun energy =>
            (substring 0 2 (energy_name energy) ++
             py_str_int (dict_get_default EnergyType_beq dist energy 0))%string)
         SIGNATURE_ORDER).

Definition generate_energy_signature (self : HybridElement) : result HybridElement :=
  let* level1 := dict_index EnergyLevel_beq (level_quanta (energy_profile self)) LEVEL_1 in
  Ok (set_energy_signature self (signature_of_distribution (energy_distribution level1))).

(** ** Construction: the dataclass [__init__] followed by [__post_init__] *)

Definition post_init (self : HybridElement) : result HybridElement :=
  let* self := calculate_energy_profile self in
  let self := determine_element_type_m self in
  generate_energy_signature self.

Definition make_HybridElement (name symbol : string) (atomic_number : Z)
    (atomic_mass : float) (nucleus : NucleusStructure) (electrons : ElectronStructure)
  : result HybridElement :=
  post_init {| name := name; symbol := symbol; atomic_number := atomic_number;
               atomic_mass := atomic_mass; nucleus := nucleus; electrons := electrons;
               energy_profile := default_profile; dominant_energy := HEAT;
               element_type := NON_METALS; energy_signature := "" |}.

(** [get_total_energy_quanta] *)
Definition get_total_energy_quanta (self : HybridElement) (energy_type : EnergyType) : Z :=
  fold_left (fun acc lq => acc + dict_get_default EnergyType_beq
                                   (energy_distribution (snd lq)) energy_type 0)
            (level_quanta (energy_profile self)) 0.

(** ** The element table [ELEMENTS_DATA] *)

Record ElementRow : Type := row {
  row_z : Z;
  row_symbol : string;
  row_name : string;
  row_mass : float;
  row_config : string;
  row_isotope : Z * Z;
  row_stability : float;
  row_ionization : float
}.

Definition ELEMENTS_DATA : list ElementRow := [
  row 1 "H" "Водород" (lit 1008 3) "1s¹" (1, 0) (lit 999 3) (lit 13598 3);
  row 2 "He" "Гелий" (lit 40026 4) "1s²" (2, 2) (lit 999 3) (lit 24587 3);
  row 3 "Li" "Литий" (lit 6941 3) "[He] 2s¹" (3, 4) (lit 999 3) (lit 5392 3);
  row 4 "Be" "Бериллий" (lit 90122 4) "[He] 2s²" (4, 5) (lit 999 3) (lit 9323 3);
  row 5 "B" "Бор" (lit 1081 2) "[He] 2s² 2p¹" (5, 6) (lit 999 3) (lit 8298 3);
  row 6 "C" "Углерод" (lit 12011 3) "[He] 2s² 2p²" (6, 6) (lit 999 3) (lit 11260 3);
  row 7 "N" "Азот" (lit 14007 3) "[He] 2s² 2p³" (7, 7) (lit 999 3) (lit 14534 3);
  row 8 "O" "Кислород" (lit 15999 3) "[He] 2s² 2p⁴" (8, 8) (lit 999 3) (lit 13618 3);
  row 9 "F" "Фтор" (lit 18998 3) "[He] 2s² 2p⁵" (9, 10) (lit 999 3) (lit 17423 3);
  row 10 "Ne" "Неон" (lit 20180 3) "[He] 2s² 2p⁶" (10, 10) (lit 999 3) (lit 21565 3);
  row 11 "Na" "Натрий" (lit 22990 3) "[Ne] 3s¹" (11, 12) (lit 999 3) (lit 5139 3);
  row 12 "Mg" "Магний" (lit 24305 3) "[Ne] 3s²" (12, 12) (lit 999 3) (lit 7646 3);
  row 13 "Al" "Алюминий" (lit 26982 3) "[Ne] 3s² 3p¹" (13, 14) (lit 999 3) (lit 5986 3);
  row 14 "Si" "Кремний" (lit 28085 3) "[Ne] 3s² 3p²" (14, 14) (lit 999 3) (lit 8152 3);
  row 15 "P" "Фосфор" (lit 30974 3) "[Ne] 3s² 3p³" (15, 16) (lit 999 3) (lit 10487 3);
  row 16 "S" "Сера" (lit 3206 2) "[Ne] 3s² 3p⁴" (16, 16) (lit 999 3) (lit 10360 3);
  row 17 "Cl" "Хлор" (lit 3545 2) "[Ne] 3s² 3p⁵" (17, 18) (lit 999 3) (lit 12968 3);
  row 18 "Ar" "Аргон" (lit 39948 3) "[Ne] 3s² 3p⁶" (18, 22) (lit 999 3) (lit 15760 3);
  row 19 "K" "Калий" (lit 39098 3) "[Ar] 4s¹" (19, 20) (lit 999 3) (lit 4341 3);
  row 20 "Ca" "Кальций" (lit 40078 3) "[Ar] 4s²" (20, 20) (lit 999 3) (lit 6113 3);
  row 21 "Sc" "Скандий" (lit 44956 3) "[Ar] 3d¹ 4s²" (21, 24) (lit 999 3) (lit 6561 3);
  row 22 "Ti" "Титан" (lit 47867 3) "[Ar] 3d² 4s²" (22, 26) (lit 999 3) (lit 6828 3);
  row 23 "V" "Ванадий" (lit 50942 3) "[Ar] 3d³ 4s²" (23, 28) (lit 999 3) (lit 6746 3);
  row 24 "Cr" "Хром" (lit 51996 3) "[Ar] 3d⁵ 4s¹" (24, 28) (lit 999 3) (lit 6767 3);
  row 25 "Mn" "Марганец" (lit 54938 3) "[Ar] 3d⁵ 4s²" (25, 30) (lit 999 3) (lit 7434 3);
  row 26 "Fe" "Железо" (lit 55845 3) "[Ar] 3d⁶ 4s²" (26, 30) (lit 999 3) (lit 7902 3);
  row 27 "Co" "Кобальт" (lit 58933 3) "[Ar] 3d⁷ 4s²" (27, 32) (lit 999 3) (lit 7881 3);
  row 28 "Ni" "Никель" (lit 58693 3) "[Ar] 3d⁸ 4s²" (28, 30) (lit 999 3) (lit 7640 3);
  row 29 "Cu" "Медь" (lit 63546 3) "[Ar] 3d¹⁰ 4s¹" (29, 34) (lit 999 3) (lit 7726 3);
  row 30 "Zn" "Цинк" (lit 6538 2) "[Ar] 3d¹⁰ 4s²" (30, 35) (lit 999 3) (lit 9394 3);
  row 31 "Ga" "Галлий" (lit 69723 3) "[Ar] 3d¹⁰ 4s² 4p¹" (31, 39) (lit 999 3) (lit 5999 3);
  row 32 "Ge" "Германий" (lit 72630 3) "[Ar] 3d¹⁰ 4s² 4p²" (32, 41) (lit 999 3) (lit 7899 3);
  row 33 "As" "Мышьяк" (lit 74922 3) "[Ar] 3d¹⁰ 4s² 4p³" (33, 42) (lit 999 3) (lit 9789 3);
  row 34 "Se" "Селен" (lit 78971 3) "[Ar] 3d¹⁰ 4s² 4p⁴" (34, 45) (lit 999 3) (lit 9752 3);
  row 35 "Br" "Бром" (lit 79904 3) "[Ar] 3d¹⁰ 4s² 4p⁵" (35, 44) (lit 999 3) (lit 11814 3);
  row 36 "Kr" "Криптон" (lit 83798 3) "[Ar] 3d¹⁰ 4s² 4p⁶" (36, 48) (lit 999 3) (lit 14000 3);
  row 37 "Rb" "Рубидий" (lit 85468 3) "[Kr] 5s¹" (37, 48) (lit 999 3) (lit 4177 3);
  row 38 "Sr" "Стронций" (lit 8762 2) "[Kr] 5s²" (38, 50) (lit 999 3) (lit 5695 3);
  row 39 "Y" "Иттрий" (lit 88906 3) "[Kr] 4d¹ 5s²" (39, 50) (lit 999 3) (lit 6217 3);
  row 40 "Zr" "Цирконий" (lit 91224 3) "[Kr] 4d² 5s²" (40, 51) (lit 999 3) (lit 6634 3);
  row 41 "Nb" "Ниобий" (lit 92906 3) "[Kr] 4d⁴ 5s¹" (41, 52) (lit 999 3) (lit 6759 3);
  row 42 "Mo" "Молибден" (lit 9595 2) "[Kr] 4d⁵ 5s¹" (42, 54) (lit 999 3) (lit 7092 3);
  row 43 "Tc" "Технеций" (lit 980 1) "[Kr] 4d⁵ 5s²" (43, 55) (lit 100 3) (lit 7280 3);
  row 44 "Ru" "Рутений" (lit 10107 2) "[Kr] 4d⁷ 5s¹" (44, 56) (lit 999 3) (lit 7361 3);
  row 45 "Rh" "Родий" (lit 10291 2) "[Kr] 4d⁸ 5s¹" (45, 58) (lit 999 3) (lit 7459 3);
  row 46 "Pd" "Палладий" (lit 10642 2) "[Kr] 4d¹⁰" (46, 60) (lit 999 3) (lit 8337 3);
  row 47 "Ag" "Серебро" (lit 10787 2) "[Kr] 4d¹⁰ 5s¹" (47, 61) (lit 999 3) (lit 7576 3);
  row 48 "Cd" "Кадмий" (lit 11241 2) "[Kr] 4d¹⁰ 5s²" (48, 64) (lit 999 3) (lit 8994 3);
  row 49 "In" "Индий" (lit 11482 2) "[Kr] 4d¹⁰ 5s² 5p¹" (49, 66) (lit 999 3) (lit 5786 3);
  row 50 "Sn" "Олово" (lit 11871 2) "[Kr] 4d¹⁰ 5s² 5p²" (50, 69) (lit 999 3) (lit 7344 3);
  row 51 "Sb" "Сурьма" (lit 12176 2) "[Kr] 4d¹⁰ 5s² 5p³" (51, 71) (lit 999 3) (lit 8641 3);
  row 52 "Te" "Теллур" (lit 12760 2) "[Kr] 4d¹⁰ 5s² 5p⁴" (52, 76) (lit 999 3) (lit 9010 3);
  row 53 "I" "Иод" (lit 12690 2) "[Kr] 4d¹⁰ 5s² 5p⁵" (53, 74) (lit 999 3) (lit 10451 3);
  row 54 "Xe" "Ксенон" (lit 13129 2) "[Kr] 4d¹⁰ 5s² 5p⁶" (54, 77) (lit 999 3) (lit 12130 3);
  row 55 "Cs" "Цезий" (lit 13291 2) "[Xe] 6s¹" (55, 78) (lit 999 3) (lit 3894 3);
  row 56 "Ba" "Барий" (lit 13733 2) "[Xe] 6s²" (56, 81) (lit 999 3) (lit 5212 3);
  row 57 "La" "Лантан" (lit 13891 2) "[Xe] 5d¹ 6s²" (57, 82) (lit 999 3) (lit 5577 3);
  row 58 "Ce" "Церий" (lit 14012 2) "[Xe] 4f¹ 5d¹ 6s²" (58, 82) (lit 999 3) (lit 5539 3);
  row 59 "Pr" "Празеодим" (lit 14091 2) "[Xe] 4f³ 6s²" (59, 82) (lit 999 3) (lit 5464 3);
  row 60 "Nd" "Неодим" (lit 14424 2) "[Xe] 4f⁴ 6s²" (60, 84) (lit 999 3) (lit 5525 3);
  row 61 "Pm" "Прометий" (lit 1450 1) "[Xe] 4f⁵ 6s²" (61, 84) (lit 100 3) (lit 5582 3);
  row 62 "Sm" "Самарий" (lit 15036 2) "[Xe] 4f⁶ 6s²" (62, 88) (lit 999 3) (lit 5644 3);
  row 63 "Eu" "Европий" (lit 15196 2) "[Xe] 4f⁷ 6s²" (63, 89) (lit 999 3) (lit 5670 3);
  row 64 "Gd" "Гадолиний" (lit 15725 2) "[Xe] 4f⁷ 5d¹ 6s²" (64, 93) (lit 999 3) (lit 6150 3);
  row 65 "Tb" "Тербий" (lit 15893 2) "[Xe] 4f⁹ 6s²" (65, 94) (lit 999 3) (lit 5864 3);
  row 66 "Dy" "Диспрозий" (lit 16250 2) "[Xe] 4f¹⁰ 6s²" (66, 97) (lit 999 3) (lit 5939 3);
  row 67 "Ho" "Гольмий" (lit 16493 2) "[Xe] 4f¹¹ 6s²" (67, 98) (lit 999 3) (lit 6022 3);
  row 68 "Er" "Эрбий" (lit 16726 2) "[Xe] 4f¹² 6s²" (68, 99) (lit 999 3) (lit 6108 3);
  row 69 "Tm" "Тулий" (lit 16893 2) "[Xe] 4f¹³ 6s²" (69, 100) (lit 999 3) (lit 6184 3);
  row 70 "Yb" "Иттербий" (lit 17305 2) "[Xe] 4f¹⁴ 6s²" (70, 103) (lit 999 3) (lit 6254 3);
  row 71 "Lu" "Лютеций" (lit 17497 2) "[Xe] 4f¹⁴ 5d¹ 6s²" (71, 104) (lit 999 3) (lit 5426 3);
  row 72 "Hf" "Гафний" (lit 17849 2) "[Xe] 4f¹⁴ 5d² 6s²" (72, 106) (lit 999 3) (lit 6825 3);
  row 73 "Ta" "Тантал" (lit 18095 2) "[Xe] 4f¹⁴ 5d³ 6s²" (73, 108) (lit 999 3) (lit 7550 3);
  row 74 "W" "Вольфрам" (lit 18384 2) "[Xe] 4f¹⁴ 5d⁴ 6s²" (74, 110) (lit 999 3) (lit 7864 3);
  row 75 "Re" "Рений" (lit 18621 2) "[Xe] 4f¹⁴ 5d⁵ 6s²" (75, 111) (lit 999 3) (lit 7833 3);
  row 76 "Os" "Осмий" (lit 19023 2) "[Xe] 4f¹⁴ 5d⁶ 6s²" (76, 114) (lit 999 3) (lit 8438 3);
  row 77 "Ir" "Иридий" (lit 19222 2) "[Xe] 4f¹⁴ 5d⁷ 6s²" (77, 115) (lit 999 3) (lit 8967 3);
  row 78 "Pt" "Платина" (lit 19508 2) "[Xe] 4f¹⁴ 5d⁹ 6s¹" (78, 117) (lit 999 3) (lit 8959 3);
  row 79 "Au" "Золото" (lit 19697 2) "[Xe] 4f¹⁴ 5d¹⁰ 6s¹" (79, 118) (lit 999 3) (lit 9226 3);
  row 80 "Hg" "Ртуть" (lit 20059 2) "[Xe] 4f¹⁴ 5d¹⁰ 6s²" (80, 121) (lit 999 3) (lit 10438 3);
  row 81 "Tl" "Таллий" (lit 20438 2) "[Xe] 4f¹⁴ 5d¹⁰ 6s² 6p¹" (81, 123) (lit 999 3) (lit 6108 3);
  row 82 "Pb" "Свинец" (lit 2072 1) "[Xe] 4f¹⁴ 5d¹⁰ 6s² 6p²" (82, 125) (lit 999 3) (lit 7417 3);
  row 83 "Bi" "Висмут" (lit 20898 2) "[Xe] 4f¹⁴ 5d¹⁰ 6s² 6p³" (83, 126) (lit 999 3) (lit 7289 3);
  row 84 "Po" "Полоний" (lit 2090 1) "[Xe] 4f¹⁴ 5d¹⁰ 6s² 6p⁴" (84, 125) (lit 100 3) (lit 8417 3);
  row 85 "At" "Астат" (lit 2100 1) "[Xe] 4f¹⁴ 5d¹⁰ 6s² 6p⁵" (85, 125) (lit 100 3) (lit 9500 3);
  row 86 "Rn" "Радон" (lit 2220 1) "[Xe] 4f¹⁴ 5d¹⁰ 6s² 6p⁶" (86, 136) (lit 100 3) (lit 10748 3);
  row 87 "Fr" "Франций" (lit 2230 1) "[Rn] 7s¹" (87, 136) (lit 100 3) (lit 4073 3);
  row 88 "Ra" "Радий" (lit 2260 1) "[Rn] 7s²" (88, 138) (lit 100 3) (lit 5279 3);
  row 89 "Ac" "Актиний" (lit 2270 1) "[Rn] 6d¹ 7s²" (89, 138) (lit 100 3) (lit 5170 3);
  row 90 "Th" "Торий" (lit 23204 2) "[Rn] 6d² 7s²" (90, 142) (lit 999 3) (lit 6307 3);
  row 91 "Pa" "Протактиний" (lit 23104 2) "[Rn] 5f² 6d¹ 7s²" (91, 140) (lit 100 3) (lit 5890 3);
  row 92 "U" "Уран" (lit 23803 2) "[Rn] 5f³ 6d¹ 7s²" (92, 146) (lit 999 3) (lit 6194 3);
  row 93 "Np" "Нептуний" (lit 2370 1) "[Rn] 5f⁴ 6d¹ 7s²" (93, 144) (lit 100 3) (lit 6266 3);
  row 94 "Pu" "Плутоний" (lit 2440 1) "[Rn] 5f⁶ 7s²" (94, 150) (lit 100 3) (lit 6026 3);
  row 95 "Am" "Америций" (lit 2430 1) "[Rn] 5f⁷ 7s²" (95, 148) (lit 100 3) (lit 5974 3);
  row 96 "Cm" "Кюрий" (lit 2470 1) "[Rn] 5f⁷ 6d¹ 7s²" (96, 151) (lit 100 3) (lit 5992 3);
  row 97 "Bk" "Берклий" (lit 2470 1) "[Rn] 5f⁹ 7s²" (97, 150) (lit 100 3) (lit 6198 3);
  row 98 "Cf" "Калифорний" (lit 2510 1) "[Rn] 5f¹⁰ 7s²" (98, 153) (lit 100 3) (lit 6282 3);
  row 99 "Es" "Эйнштейний" (lit 2520 1) "[Rn] 5f¹¹ 7s²" (99, 153) (lit 100 3) (lit 6420 3);
  row 100 "Fm" "Фермий" (lit 2570 1) "[Rn] 5f¹² 7s²" (100, 157) (lit 100 3) (lit 6500 3);
  row 101 "Md" "Менделевий" (lit 2580 1) "[Rn] 5f¹³ 7s²" (101, 157) (lit 100 3) (lit 6580 3);
  row 102 "No" "Нобелий" (lit 2590 1) "[Rn] 5f¹⁴ 7s²" (102, 157) (lit 100 3) (lit 6650 3);
  row 103 "Lr" "Лоуренсий" (lit 2620 1) "[Rn] 5f¹⁴ 7s² 7p¹" (103, 159) (lit 100 3) (lit 4900 3);
  row 104 "Rf" "Резерфордий" (lit 2670 1) "[Rn] 5f¹⁴ 6d² 7s²" (104, 163) (lit 10 3) (lit 6000 3);
  row 105 "Db" "Дубний" (lit 2680 1) "[Rn] 5f¹⁴ 6d³ 7s²" (105, 163) (lit 10 3) (lit 6800 3);
  row 106 "Sg" "Сиборгий" (lit 2690 1) "[Rn] 5f¹⁴ 6d⁴ 7s²" (106, 163) (lit 10 3) (lit 7900 3);
  row 107 "Bh" "Борий" (lit 2700 1) "[Rn] 5f¹⁴ 6d⁵ 7s²" (107, 163) (lit 10 3) (lit 7900 3);
  row 108 "Hs" "Хассий" (lit 2770 1) "[Rn] 5f¹⁴ 6d⁶ 7s²" (108, 169) (lit 10 3) (lit 8300 3);
  row 109 "Mt" "Мейтнерий" (lit 2780 1) "[Rn] 5f¹⁴ 6d⁷ 7s²" (109, 169) (lit 10 3) (lit 8400 3);
  row 110 "Ds" "Дармштадтий" (lit 2810 1) "[Rn] 5f¹⁴ 6d⁷ 7s²" (110, 171) (lit 10 3) (lit 7600 3);
  row 111 "Rg" "Рентгений" (lit 2820 1) "[Rn] 5f¹⁴ 6d⁹ 7s²" (111, 171) (lit 10 3) (lit 7700 3);
  row 112 "Cn" "Коперниций" (lit 2850 1) "[Rn] 5f¹⁴ 6d¹⁰ 7s²" (112, 173) (lit 10 3) (lit 8900 3);
  row 113 "Nh" "Нихоний" (lit 2860 1) "[Rn] 5f¹⁴ 6d¹⁰ 7s² 7p¹" (113, 173) (lit 10 3) (lit 7000 3);
  row 114 "Fl" "Флеровий" (lit 2890 1) "[Rn] 5f¹⁴ 6d¹⁰ 7s² 7p²" (114, 175) (lit 10 3) (lit 8300 3);
  row 115 "Mc" "Московий" (lit 2900 1) "[Rn] 5f¹⁴ 6d¹⁰ 7s² 7p³" (115, 175) (lit 10 3) (lit 5800 3);
  row 116 "Lv" "Ливерморий" (lit 2930 1) "[Rn] 5f¹⁴ 6d¹⁰ 7s² 7p⁴" (116, 177) (lit 10 3) (lit 7500 3);
  row 117 "Ts" "Теннессин" (lit 2940 1) "[Rn] 5f¹⁴ 6d¹⁰ 7s² 7p⁵" (117, 177) (lit 10 3) (lit 7700 3);
  row 118 "Og" "Оганесон" (lit 2940 1) "[Rn] 5f¹⁴ 6d¹⁰ 7s² 7p⁶" (118, 176) (lit 10 3) (lit 8910 3)
].

(** ** [HybridElementFactory] *)

Definition calculate_valence_electrons (config : string) : Z :=
  let has x := contains x config in
  if has "s¹"%string && negb (existsb has ["p"; "d"; "f"]%string) then 1
  else if has "s²"%string && negb (existsb has ["p"; "d"; "f"]%string) then 2
  else if has "p¹"%string then 3
  else if has "p²"%string then 4
  else if has "p³"%string then 5
  else if has "p⁴"%string then 6
  else if has "p⁵"%string then 7
  else if has "p⁶"%string then 8
  else 0.

(** The body of the [try] block of [create_element]: [Ok None] is the
    [return None] of the lookup miss, an [Err] is an exception raised inside
    the block. *)
Definition create_element_try (n : Z) : result (option HybridElement) :=
  match find (fun item => row_z item =? n) ELEMENTS_DATA with
  | None => Ok None
  | Some r =>
      let z := row_z r in
      let '(protons, neutrons) := row_isotope r in
      let* be :=
        if z >? 20 then
          let* x := int_mul_float (z - 20) (lit 2 2) in Ok (PyFloat.sub (lit 80 1) x)
        else Ok (lit 80 1) in
      let nucleus := {| protons := protons; neutrons := neutrons;
                        stability := row_stability r; binding_energy := be;
                        spin := PyFloat.zero; magnetic_moment := PyFloat.zero |} in
      let valence := calculate_valence_electrons (row_config r) in
      let electrons := {| configuration := row_config r; valence_electrons := valence;
                          ionization_energy := row_ionization r;
                          electron_affinity := PyFloat.mul (row_ionization r) (lit 3 1) |} in
      let* e := make_HybridElement (row_name r) (row_symbol r) z (row_mass r) nucleus electrons in
      Ok (Some e)
  end.

(** [create_element]: the [except Exception] handler prints a message (not
    modelled) and returns [None]. *)
Definition create_element (n : Z) : option HybridElement :=
  match create_element_try n with
  | Ok r => r
  | Err _ => None
  end.

(** ** Views used by the statements below *)

(** The spec's classifier (§4.1): an ordered list of (condition, category)
    rules, evaluated top to bottom, first match wins, [Electricity] by
    default.  The markers are matched on the case-folded configuration, the
    string the classifier inspects. *)
Definition classifier_rules (z : Z) (configuration : string) : list (bool * EnergyType) :=
  let c := py_lower configuration in
  [(z =? 1, HEAT);
   (ends_with "p⁶"%string c, LIGHT);
   (contains "p³"%string c || contains "p⁴"%string c || contains "p⁵"%string c, HEAT);
   (contains "p¹"%string c || contains "p²"%string c, RADIOWAVES);
   (ends_with "s¹"%string c, MAGNETISM)].

Fixpoint first_match (rules : list (bool * EnergyType)) (default : EnergyType) : EnergyType :=
  match rules with
  | [] => default
  | (cond, category) :: rest => if cond then category else first_match rest default
  end.

Definition classify_spec (z : Z) (configuration : string) : EnergyType :=
  first_match (classifier_rules z configuration) ELECTRICITY.

(** The level record of a profile, and its [total_quanta]. *)
Definition level_of (x : HybridElement) (lvl : EnergyLevel) : option EnergyLevelQuanta :=
  dict_get EnergyLevel_beq (level_quanta (energy_profile x)) lvl.

(** The Outer-level ([LEVEL_1]) quanta of one category, as the signature
    reads it ([.get(energy, 0)]). *)
Definition outer_quanta (x : HybridElement) (k : EnergyType) : option Z :=
  option_map (fun l => dict_get_default EnergyType_beq (energy_distribution l) k 0)
             (level_of x LEVEL_1).

(** The quantities of the helium scenario: total, level totals
    (Outer, Middle, Inner) and the Outer-level [HEAT] quanta. *)
Definition allocation_summary (x : HybridElement) : Z * option Z * option Z * option Z * option Z :=
  (total_quanta (energy_profile x),
   option_map level_total_quanta (level_of x LEVEL_1),
   option_map level_total_quanta (level_of x LEVEL_2),
   option_map level_total_quanta (level_of x LEVEL_3),
   outer_quanta x HEAT).

(** The per-row facts of the element table: the mass is at least [1.008],
    [int(1600 * mass)] is at least 1612, and the factory builds the element
    without an exception, with that total. *)
Definition row_ok (r : ElementRow) : bool :=
  PyFloat.leb (lit 1008 3) (row_mass r) &&
  match int_mul_float 1600 (row_mass r) with
  | Ok f =>
      match py_int f with
      | Ok total =>
          (1612 <=? total) &&
          match create_element_try (row_z r) with
          | Ok (Some x) => (total_quanta (energy_profile x) =? total)
          | _ => false
          end
      | Err _ => false
      end
  | Err _ => false
  end.

(** Sample inputs: hydrogen's nucleus and electron shell from the table,
    and variants of them. *)
Definition sample_nucleus (st : float) : NucleusStructure :=
  {| protons := 1; neutrons := 0; stability := st; binding_energy := lit 80 1;
     spin := PyFloat.zero; magnetic_moment := PyFloat.zero |}.

Definition sample_electrons (config : string) (ion : float) : ElectronStructure :=
  {| configuration := config; valence_electrons := calculate_valence_electrons config;
     ionization_energy := ion; electron_affinity := PyFloat.mul ion (lit 3 1) |}.

(** The result of a construction, with a fixed fallback on an exception. *)
Definition ok_or (d : HybridElement) (r : result HybridElement) : HybridElement :=
  match r with Ok x => x | Err _ => d end.

Definition sample_H : result HybridElement :=
  make_HybridElement "Водород"%string "H"%string 1 (lit 1008 3)
    (sample_nucleus (lit 999 3)) (sample_electrons "1s¹"%string (lit 13598 3)).

(** Same mass, every other attribute different. *)
Definition sample_H_variant : result HybridElement :=
  make_HybridElement "X"%string "Xx"%string 7 (lit 1008 3)
    (sample_nucleus (lit 5 1)) (sample_electrons "[He] 2s² 2p³"%string (lit 9 0)).

(** A mass below [1/1600]: [int(1600 * 0.0005) = 0]. *)
Definition sample_tiny : result HybridElement :=
  make_HybridElement "X"%string "Xx"%string 1 (lit 5 4)
    (sample_nucleus (lit 999 3)) (sample_electrons "1s¹"%string (lit 13598 3)).

(** A fallback record for [ok_or]: the fields [make_HybridElement] starts from. *)
Definition blank_element : HybridElement :=
  {| name := ""; symbol := ""; atomic_number := 0; atomic_mass := PyFloat.zero;
     nucleus := sample_nucleus PyFloat.zero;
     electrons := sample_electrons "" PyFloat.zero;
     energy_profile := default_profile; dominant_energy := HEAT;
     element_type := NON_METALS; energy_signature := "" |}.

(** The level-split shortfall as the spec words it: the three floors sum to
    strictly less than [total], by at most two units. *)
Definition strict_shortfall (total : Z) : Prop :=
  exists f1 f2 f3, level_floors total = Ok (f1, f2, f3) /\
    0 < total - (f1 + f2 + f3) <= 2.

(** ** [HybridPeriodicSystem] *)

(** The members of [ElementType] and [EnergyType] in declaration order,
    the order of [for et in ElementType] and [for energy_type in EnergyType]. *)
Definition ELEMENT_TYPES : list ElementType :=
  [ACTIVE_METALS; MEDIUM_METALS; SEMI_METALS; NON_METALS; INERT_GASES].

Definition ENERGY_TYPES : list EnergyType :=
  [HEAT; LIGHT; MAGNETISM; ELECTRICITY; RADIOWAVES;
   MICRO_GRAVITY; MACRO_GRAVITY; THERMONUCLEAR; RADIOACTIVITY].

(** [range(a, b)] *)
Definition py_range (a b : Z) : list Z :=
  map (fun i => a + Z.of_nat i) (seq 0 (Z.to_nat (b - a))).

(** A [for] loop whose body may raise: the first exception ends the loop. *)
Fixpoint fold_result {A B : Type} (f : A -> B -> result A) (l : list B) (a : A) : result A :=
  match l with
  | [] => Ok a
  | b :: l' => let* a' := f a b in fold_result f l' a'
  end.

Record HybridPeriodicSystem : Type := mk_system {
  elements : list HybridElement;
  clusters : list (ElementType * list HybridElement)
}.

(** [__init__]: no elements, an empty cluster per [ElementType]. *)
Definition init_system : HybridPeriodicSystem :=
  {| elements := []; clusters := map (fun et => (et, [])) ELEMENT_TYPES |}.

(** One iteration of the loop of [build_system].  A dataclass instance is
    always truthy, so [if element:] tests [None] only.  The element is
    appended to [self.elements] and to its cluster [self.clusters[t]]
    ([KeyError] if the key is missing). *)
Definition build_step (self : HybridPeriodicSystem) (z : Z) : result HybridPeriodicSystem :=
  match create_element z with
  | Some element =>
      let* cl := dict_index ElementType_beq (clusters self) (element_type element) in
      Ok {| elements := elements self ++ [element];
            clusters := dict_set ElementType_beq (clusters self) (element_type element)
                          (cl ++ [element]) |}
  | None => Ok self
  end.

(** [build_system(max_elements)]: [for z in range(1, max_elements + 1)]. *)
Definition build_system (self : HybridPeriodicSystem) (max_elements : Z)
  : result HybridPeriodicSystem :=
  fold_result build_step (py_range 1 (max_elements + 1)) self.

(** [print_summary_statistics]: the printed [total_elements], the sum of
    the cluster sizes. *)
Definition summary_total (self : HybridPeriodicSystem) : Z :=
  fold_left (fun acc kv => acc + Z.of_nat (List.length (snd kv))) (clusters self) 0.

(** [analyze_energy_distribution]: the printed [total_energy] and
    [energy_totals]; [energy_totals[energy_type] += ...] raises [KeyError]
    on a missing key. *)
Definition add_energy_totals (totals : list (EnergyType * Z)) (element : HybridElement)
  : result (list (EnergyType * Z)) :=
  fold_result (fun totals energy_type =>
                 let* cur := dict_index EnergyType_beq totals energy_type in
                 Ok (dict_set EnergyType_beq totals energy_type
                       (cur + get_total_energy_quanta element energy_type)))
              ENERGY_TYPES totals.

Definition analyze_energy_distribution (self : HybridPeriodicSystem)
  : result (Z * list (EnergyType * Z)) :=
  let total_energy :=
    fold_left (fun acc elem => acc + total_quanta (energy_profile elem)) (elements self) 0 in
  let energy_totals := map (fun et => (et, 0)) ENERGY_TYPES in
  let* energy_totals := fold_result add_energy_totals (elements self) energy_totals in
  Ok (total_energy, energy_totals).

(** [generate_comparative_visualization]: the list [elements_to_compare],
    the first element of [self.elements] with each requested number. *)
Definition elements_to_compare (self : HybridPeriodicSystem) (element_numbers : list Z)
  : list HybridElement :=
  fold_left (fun acc z =>
               match find (fun e => atomic_number e =? z) (elements self) with
               | Some element => acc ++ [element]
               | None => acc
               end) element_numbers [].

(** The cluster table as [build_system] keeps it: the keys in
    [ElementType] order, each holding the elements of its type in the
    order of [self.elements]. *)
Definition clusters_inv (s : HybridPeriodicSystem) : Prop :=
  clusters s = map (fun et => (et, filter (fun e => ElementType_beq (element_type e) et)
                                         (elements s))) ELEMENT_TYPES.

(** * Rounding of binary64 products *)

Section Rounding.

Lemma digits2_pos_bounds (p : positive) :
  2 ^ (Z.pos (digits2_pos p) - 1) <= Z.pos p < 2 ^ Z.pos (digits2_pos p).
Proof.
  induction p as [p IH|p IH|]; simpl digits2_pos; try (simpl; lia);
  rewrite Pos2Z.inj_succ;
  [rewrite (Pos2Z.pos_xI p) | rewrite (Pos2Z.pos_xO p)];
  set (d := Z.pos (digits2_pos p)) in *;
  assert (E : 2 ^ d = 2 * 2 ^ (d - 1))
    by (rewrite <- Z.pow_succ_r by lia; f_equal; lia);
  replace (Z.succ d - 1) with d by lia;
  rewrite Z.pow_succ_r by lia; lia.
Qed.

Lemma digits_unique (z a b : Z) :
  1 <= a -> 1 <= b ->
  2 ^ (a - 1) <= z < 2 ^ a -> 2 ^ (b - 1) <= z < 2 ^ b -> a = b.
Proof.
  intros Ha Hb [Ha1 Ha2] [Hb1 Hb2].
  destruct (Z.lt_trichotomy a b) as [Hlt|[Heq|Hgt]]; auto.
  - assert (2 ^ a <= 2 ^ (b - 1)) by (apply Z.pow_le_mono_r; lia). lia.
  - assert (2 ^ b <= 2 ^ (a - 1)) by (apply Z.pow_le_mono_r; lia). lia.
Qed.

Lemma iter_pos_nat {A : Type} (f : A -> A) (p : positive) (x : A) :
  iter_pos f p x = Nat.iter (Pos.to_nat p) f x.
Proof.
  revert x. induction p as [p IH|p IH|]; intros x.
  - change (iter_pos f p~1 x) with (iter_pos f p (iter_pos f p (f x))).
    rewrite IH, IH, Pos2Nat.inj_xI, <- Nat.iter_add, Nat.iter_succ_r.
    f_equal. lia.
  - change (iter_pos f p~0 x) with (iter_pos f p (iter_pos f p x)).
    rewrite IH, IH, Pos2Nat.inj_xO, <- Nat.iter_add. f_equal. lia.
  - reflexivity.
Qed.

Lemma shr_1_nonneg (m : Z) (r s : bool) :
  0 <= m ->
  shr_1 {| shr_m := m; shr_r := r; shr_s := s |} =
  {| shr_m := m / 2; shr_r := Z.odd m; shr_s := r || s |}.
Proof.
  intros Hm. destruct m as [|p|p]; try lia.
  - reflexivity.
  - destruct p as [p|p|]; simpl.
    + rewrite <- Z.div2_div. reflexivity.
    + rewrite <- Z.div2_div. reflexivity.
    + reflexivity.
Qed.

(** [k] right shifts of a non-negative mantissa: the quotient, the round
    bit (the remainder is at least half) and the sticky bit (the remainder
    is not a multiple of half). *)
Lemma shr_iter (P : Z) (k : nat) :
  0 <= P -> (1 <= k)%nat ->
  Nat.iter k shr_1 {| shr_m := P; shr_r := false; shr_s := false |} =
  {| shr_m := P / 2 ^ Z.of_nat k;
     shr_r := 2 ^ (Z.of_nat k - 1) <=? P mod 2 ^ Z.of_nat k;
     shr_s := negb (P mod 2 ^ Z.of_nat k mod 2 ^ (Z.of_nat k - 1) =? 0) |}.
Proof.
  intros HP Hk. induction k as [|k IH]; [lia|].
  change (Nat.iter (S k) shr_1 ?x) with (shr_1 (Nat.iter k shr_1 x)).
  destruct k as [|k].
  - simpl Nat.iter. rewrite shr_1_nonneg by lia.
    change (Z.of_nat 1) with 1. rewrite Z.mod_1_r. simpl.
    f_equal. rewrite Zmod_odd. destruct (Z.odd P); reflexivity.
  - rewrite IH by lia.
    set (K := Z.of_nat (S k)).
    assert (HK : 1 <= K) by lia.
    replace (Z.of_nat (S (S k))) with (K + 1) by lia.
    replace (K + 1 - 1) with K by lia.
    assert (HT : 2 ^ (K + 1) = 2 ^ K * 2) by (rewrite Z.pow_add_r by lia; reflexivity).
    assert (HH : 2 ^ K = 2 * 2 ^ (K - 1))
      by (rewrite <- Z.pow_succ_r by lia; f_equal; lia).
    set (T := 2 ^ K) in *. set (H := 2 ^ (K - 1)) in *.
    assert (HT0 : 0 < T) by (subst T; apply Z.pow_pos_nonneg; lia).
    rewrite shr_1_nonneg by (apply Z.div_pos; lia).
    rewrite HT.
    rewrite (Z.rem_mul_r P T 2) by lia.
    rewrite Z.div_div by lia.
    assert (HR := Z.mod_pos_bound P T HT0).
    set (R := P mod T) in *.
    assert (Hm : (R + T * (P / T mod 2)) mod T = R).
    { rewrite Z.mul_comm, Z.mod_add by lia. apply Z.mod_small. lia. }
    rewrite Hm. f_equal.
    + rewrite Zmod_odd. destruct (Z.odd (P / T)).
      * symmetry. apply Z.leb_le. lia.
      * symmetry. apply Z.leb_gt. lia.
    + destruct (Z.leb_spec H R).
      * symmetry. apply negb_true_iff, Z.eqb_neq. lia.
      * rewrite Z.mod_small by lia. reflexivity.
Qed.

(** Rounding to nearest after [p] shifts: within half a unit of the last
    place, at the quotient or one above it. *)
Lemma round_shr_error (P : Z) (p : positive) :
  0 <= P ->
  let r := iter_pos shr_1 p {| shr_m := P; shr_r := false; shr_s := false |} in
  let m := round_nearest_even (shr_m r) (loc_of_shr_record r) in
  P / 2 ^ Z.pos p <= m <= P / 2 ^ Z.pos p + 1 /\
  Z.abs (m * 2 ^ Z.pos p - P) <= 2 ^ (Z.pos p - 1).
Proof.
  intros HP r m. subst r m.
  rewrite iter_pos_nat, shr_iter by lia.
  rewrite positive_nat_Z.
  assert (HH : 2 ^ Z.pos p = 2 * 2 ^ (Z.pos p - 1))
    by (rewrite <- Z.pow_succ_r by lia; f_equal; lia).
  set (T := 2 ^ Z.pos p) in *. set (H := 2 ^ (Z.pos p - 1)) in *.
  assert (H0 : 0 < H) by (subst H; apply Z.pow_pos_nonneg; lia).
  assert (HT0 : 0 < T) by lia.
  assert (HR := Z.mod_pos_bound P T HT0).
  assert (HD := Z.div_mod P T ltac:(lia)).
  set (R := P mod T) in *. set (q := P / T) in *.
  destruct (Z.leb_spec H R) as [Hr|Hr].
  - assert (HRH : R mod H = R - H).
    { rewrite <- (Z.mod_small (R - H) H) by lia.
      replace R with (R - H + 1 * H) at 1 by lia. apply Z.mod_add. lia. }
    rewrite HRH. simpl.
    destruct (Z.eqb_spec (R - H) 0) as [E|E]; simpl.
    + destruct (Z.even q); split; try lia; rewrite Z.abs_le; nia.
    + split; [lia|]. rewrite Z.abs_le; nia.
  - rewrite (Z.mod_small R H) by lia. simpl.
    destruct (Z.eqb_spec R 0); simpl; (split; [lia|]); rewrite Z.abs_le; nia.
Qed.

Lemma Zdigits2_bounds (z : Z) :
  0 < z -> 2 ^ (Zdigits2 z - 1) <= z < 2 ^ Zdigits2 z.
Proof.
  intros Hz. destruct z as [|p|p]; try lia. apply digits2_pos_bounds.
Qed.

(** The first stage of [binary_round_aux]: the shift brings a mantissa of
    [d >= 53] digits down to 53 digits. *)
Lemma shr_fexp_exact (P : positive) (E : Z) :
  53 <= Z.pos (digits2_pos P) -> -1074 <= Z.pos (digits2_pos P) + E - 53 ->
  shr_fexp 53 1024 (Z.pos P) E loc_Exact =
  shr {| shr_m := Z.pos P; shr_r := false; shr_s := false |} E (Z.pos (digits2_pos P) - 53).
Proof.
  intros Hd He. unfold shr_fexp, fexp, emin. simpl shr_record_of_loc.
  change (Zdigits2 (Z.pos P)) with (Z.pos (digits2_pos P)).
  f_equal. rewrite Z.max_l; lia.
Qed.

(** [binary_round_aux] on a positive exact value [P * 2^E] whose mantissa
    has at least 53 digits: a finite float [m * 2^e] within half a unit of
    the last place of [P * 2^E]. *)
Lemma binary_round_aux_spec (P : positive) (E : Z) :
  let d := Z.pos (digits2_pos P) in
  53 <= d -> -1074 <= d + E - 53 -> E + d - 52 <= 971 ->
  exists m e,
    binary_round_aux 53 1024 false (Z.pos P) E loc_Exact = S754_finite false m e /\
    E + d - 53 <= e <= E + d - 52 /\
    Z.abs (Z.pos m * 2 ^ (e - E) - Z.pos P) <= 2 ^ (e - E - 1).
Proof.
  intros d Hd Hmin Hmax.
  assert (HP := digits2_pos_bounds P). fold d in HP.
  remember (binary_round_aux 53 1024 false (Z.pos P) E loc_Exact) as res eqn:Hres.
  unfold binary_round_aux in Hres. rewrite shr_fexp_exact in Hres by lia. fold d in Hres.
  destruct (Z.eq_dec d 53) as [D|D].
  - replace (d - 53) with 0 in Hres by lia.
    cbn [shr shr_m loc_of_shr_record round_nearest_even] in Hres.
    rewrite shr_fexp_exact in Hres by lia. fold d in Hres.
    replace (d - 53) with 0 in Hres by lia.
    cbn [shr shr_m] in Hres.
    replace (E <=? 1024 - 53) with true in Hres by (symmetry; apply Z.leb_le; lia).
    exists P, E. split; [exact Hres|]. split; [lia|].
    rewrite Z.sub_diag, Z.mul_1_r, Z.sub_diag. simpl. lia.
  - set (n := d - 53) in Hres.
    assert (Hn : 0 < n) by lia.
    destruct n as [|p|p] eqn:En; try lia.
    cbn [shr] in Hres.
    destruct (round_shr_error (Z.pos P) p ltac:(lia)) as [Hb Herr].
    set (m1 := round_nearest_even _ _) in *.
    assert (Hpow : 2 ^ (d - 1) = 2 ^ 52 * 2 ^ Z.pos p)
      by (rewrite <- Z.pow_add_r by lia; f_equal; lia).
    assert (Hpow' : 2 ^ d = 2 ^ 53 * 2 ^ Z.pos p)
      by (rewrite <- Z.pow_add_r by lia; f_equal; lia).
    assert (Hp0 : 0 < 2 ^ Z.pos p) by (apply Z.pow_pos_nonneg; lia).
    assert (Hq1 : 2 ^ 52 <= Z.pos P / 2 ^ Z.pos p).
    { apply Z.div_le_lower_bound; lia. }
    assert (Hq2 : Z.pos P / 2 ^ Z.pos p < 2 ^ 53).
    { apply Z.div_lt_upper_bound; lia. }
    destruct m1 as [|m1p|m1p] eqn:Em1; try (exfalso; lia).
    assert (HB := digits2_pos_bounds m1p).
    assert (Hd1 : 53 <= Z.pos (digits2_pos m1p) <= 54).
    { split.
      - destruct (Z.le_gt_cases 53 (Z.pos (digits2_pos m1p))) as [|G]; [lia|].
        assert (2 ^ Z.pos (digits2_pos m1p) <= 2 ^ 52) by (apply Z.pow_le_mono_r; lia).
        lia.
      - destruct (Z.le_gt_cases (Z.pos (digits2_pos m1p)) 54) as [|G]; [lia|].
        assert (2 ^ 54 <= 2 ^ (Z.pos (digits2_pos m1p) - 1)) by (apply Z.pow_le_mono_r; lia).
        lia. }
    rewrite shr_fexp_exact in Hres by lia.
    destruct (Z.eq_dec (Z.pos (digits2_pos m1p)) 53) as [D1|D1].
    + replace (Z.pos (digits2_pos m1p) - 53) with 0 in Hres by lia.
      cbn [shr shr_m] in Hres.
      replace (E + Z.pos p <=? 1024 - 53) with true in Hres
        by (symmetry; apply Z.leb_le; lia).
      exists m1p, (E + Z.pos p). split; [exact Hres|]. split; [lia|].
      replace (E + Z.pos p - E) with (Z.pos p) by lia. exact Herr.
    + assert (D2 : Z.pos (digits2_pos m1p) = 54) by lia.
      assert (Hm1 : Z.pos m1p = 2 ^ 53).
      { assert (2 ^ 53 <= Z.pos m1p) by (rewrite D2 in HB; exact (proj1 HB)). lia. }
      replace (Z.pos (digits2_pos m1p) - 53) with 1 in Hres by lia.
      cbn [shr iter_pos] in Hres. rewrite Hm1, shr_1_nonneg in Hres by lia.
      cbn [shr_m] in Hres.
      replace (E + Z.pos p + 1 <=? 1024 - 53) with true in Hres
        by (symmetry; apply Z.leb_le; lia).
      exists (2 ^ 52)%positive, (E + Z.pos p + 1). split; [exact Hres|]. split; [lia|].
      replace (E + Z.pos p + 1 - E) with (Z.pos p + 1) by lia.
      replace (Z.pos p + 1 - 1) with (Z.pos p) by lia.
      assert (2 ^ (Z.pos p - 1) <= 2 ^ Z.pos p) by (apply Z.pow_le_mono_r; lia).
      replace (Z.pos (2 ^ 52) * 2 ^ (Z.pos p + 1)) with (Z.pos m1p * 2 ^ Z.pos p).
      * lia.
      * rewrite Hm1, Z.pow_add_r by lia. change (Z.pos (2 ^ 52)) with (2 ^ 52).
        change (2 ^ 53) with (2 ^ 52 * 2 ^ 1). ring.
Qed.

Lemma pos_iter_xO (x k : positive) :
  Z.pos (Pos.iter xO x k) = Z.pos x * 2 ^ Z.pos k.
Proof.
  induction k as [|k IH] using Pos.peano_ind.
  - cbn [Pos.iter]. lia.
  - rewrite Pos.iter_succ, Pos2Z.inj_succ, Z.pow_succ_r by lia.
    rewrite Pos2Z.pos_xO, IH. ring.
Qed.

Lemma digits2_pos_eq (p : positive) (d : Z) :
  1 <= d -> 2 ^ (d - 1) <= Z.pos p < 2 ^ d -> Z.pos (digits2_pos p) = d.
Proof.
  intros Hd Hb. apply (digits_unique (Z.pos p)); [lia|exact Hd|apply digits2_pos_bounds|exact Hb].
Qed.

(** [float(t)] for [0 < t < 2^53]: the mantissa [t] scaled to 53 digits. *)
Lemma of_int_pos (t : Z) :
  0 < t < 2 ^ 53 ->
  exists M, PyFloat.of_int t = S754_finite false M (Zdigits2 t - 53) /\
            Z.pos M = t * 2 ^ (53 - Zdigits2 t).
Proof.
  intros Ht. destruct t as [|tp|tp]; try lia.
  change (Zdigits2 (Z.pos tp)) with (Z.pos (digits2_pos tp)).
  assert (HB := digits2_pos_bounds tp).
  set (d := Z.pos (digits2_pos tp)) in *.
  assert (Hd : d <= 53).
  { destruct (Z.le_gt_cases d 53) as [|G]; [lia|].
    assert (2 ^ 53 <= 2 ^ (d - 1)) by (apply Z.pow_le_mono_r; lia). lia. }
  unfold PyFloat.of_int, binary_normalize, binary_round, shl_align, fexp, emin.
  change (Zdigits2 (Z.pos tp)) with d.
  unfold PyFloat.prec, PyFloat.emax. fold d.
  replace (IntDef.Z.max (d + 0 - 53) (3 - 1024 - 53)) with (d - 53)
    by (symmetry; apply Z.max_l; lia).
  rewrite Z.sub_0_r.
  assert (Hexact : forall M, 2 ^ 52 <= Z.pos M < 2 ^ 53 -> d - 53 <= 971 ->
            binary_round_aux 53 1024 false (Z.pos M) (d - 53) loc_Exact
            = S754_finite false M (d - 53)).
  { intros M HM Hle.
    assert (DM : Z.pos (digits2_pos M) = 53) by (apply digits2_pos_eq; lia).
    unfold binary_round_aux. rewrite shr_fexp_exact by lia. rewrite DM.
    simpl (53 - 53).
    cbn [shr shr_m loc_of_shr_record round_nearest_even].
    rewrite shr_fexp_exact by lia. rewrite DM. simpl (53 - 53).
    cbn [shr shr_m].
    replace (d - 53 <=? 1024 - 53) with true by (symmetry; apply Z.leb_le; lia).
    reflexivity. }
  destruct (Z.eq_dec d 53) as [D|D].
  - rewrite D. simpl (53 - 53). cbv iota beta.
    exists tp. split; [|rewrite Z.mul_1_r; reflexivity].
    assert (HB' : 2 ^ 52 <= Z.pos tp) by (rewrite D in HB; exact (proj1 HB)).
    pose proof (Hexact tp ltac:(lia) ltac:(lia)) as H.
    replace (d - 53) with 0 in H by lia. exact H.
  - destruct (d - 53) as [|k|k] eqn:Ek; try lia.
    cbv iota beta.
    assert (Hk : Z.pos k = 53 - d) by lia.
    exists (Pos.iter xO tp k).
    split; [|rewrite pos_iter_xO, Hk; reflexivity].
    apply Hexact; [|lia].
    rewrite pos_iter_xO, Hk.
    assert (Hpow : 2 ^ 53 = 2 ^ d * 2 ^ (53 - d))
      by (rewrite <- Z.pow_add_r by lia; f_equal; lia).
    assert (Hpow' : 2 ^ d = 2 * 2 ^ (d - 1))
      by (rewrite <- Z.pow_succ_r by lia; f_equal; lia).
    assert (0 < 2 ^ (53 - d)) by (apply Z.pow_pos_nonneg; lia).
    split; nia.
Qed.

Lemma mul_finite (M mc : positive) (E1 E2 : Z) :
  PyFloat.mul (S754_finite false M E1) (S754_finite false mc E2) =
  binary_round_aux 53 1024 false (Z.pos (M * mc)) (E1 + E2) loc_Exact.
Proof. reflexivity. Qed.

Lemma pow_pos' (n : Z) : 0 <= n -> 0 < 2 ^ n.
Proof. intros. apply Z.pow_pos_nonneg; lia. Qed.

(** [int(t * c)] for a binary constant [c = mc * 2^-K] with a 53-digit
    mantissa and [0 <= t < 2^40]: the result [F] lies between the exact
    floor of [t * c] and that floor plus a rounding slack of [2t * 2^-K];
    and it is [n] when [t * c] is within a relative [2^-54] of the integer
    [n] (the product then rounds to [n] exactly). *)
Lemma int_mul_float_round (t : Z) (mc : positive) (K : Z) :
  0 <= t < 2 ^ 40 -> 2 ^ 52 <= Z.pos mc < 2 ^ 53 -> 53 <= K <= 60 ->
  exists f F,
    int_mul_float t (S754_finite false mc (- K)) = Ok f /\ py_int f = Ok F /\
    t * Z.pos mc < (F + 1) * 2 ^ K /\ F * 2 ^ K <= t * Z.pos mc + 2 * t /\
    (forall n, 2 ^ 54 * Z.abs (n * 2 ^ K - t * Z.pos mc) < t * Z.pos mc -> F = n).
Proof.
  intros Ht Hm HK.
  assert (HB : 0 < 2 ^ K) by (apply pow_pos'; lia).
  destruct t as [|tp|tp];
    [exists (S754_zero false), 0; split; [reflexivity|split; [reflexivity|]]| |lia];
    [split; [lia|split; [lia|intros n Hn; lia]]|].
  destruct (of_int_pos (Z.pos tp)) as [M [HM HMv]]; [lia|].
  change (Zdigits2 (Z.pos tp)) with (Z.pos (digits2_pos tp)) in *.
  assert (Hd := digits2_pos_bounds tp).
  set (d := Z.pos (digits2_pos tp)) in *.
  assert (Hd40 : d <= 40).
  { destruct (Z.le_gt_cases d 40) as [|G]; [lia|].
    assert (2 ^ 40 <= 2 ^ (d - 1)) by (apply Z.pow_le_mono_r; lia). lia. }
  set (A := 2 ^ (53 - d)) in *.
  assert (HA : 0 < A) by (apply pow_pos'; lia).
  assert (HA52 : 2 ^ 52 = 2 ^ (d - 1) * A)
    by (unfold A; rewrite <- Z.pow_add_r by lia; f_equal; lia).
  assert (HA53 : 2 ^ 53 = 2 * 2 ^ (d - 1) * A)
    by (unfold A; rewrite <- Z.pow_succ_r, <- Z.pow_add_r by lia; f_equal; lia).
  assert (Hd2 : 2 ^ d = 2 * 2 ^ (d - 1))
    by (rewrite <- Z.pow_succ_r by lia; f_equal; lia).
  assert (HMb : 2 ^ 52 <= Z.pos M < 2 ^ 53) by (rewrite HMv; nia).
  set (E := d - 53 + - K).
  assert (Hx : int_mul_float (Z.pos tp) (S754_finite false mc (- K)) =
               Ok (binary_round_aux 53 1024 false (Z.pos (M * mc)) E loc_Exact)).
  { unfold int_mul_float, int_to_float. rewrite HM. reflexivity. }
  assert (HP := digits2_pos_bounds (M * mc)).
  rewrite Pos2Z.inj_mul in HP.
  set (dP := Z.pos (digits2_pos (M * mc))) in *.
  assert (HdP : 105 <= dP <= 106).
  { split.
    - destruct (Z.le_gt_cases 105 dP) as [|G]; [lia|].
      assert (2 ^ dP <= 2 ^ 104) by (apply Z.pow_le_mono_r; lia). nia.
    - destruct (Z.le_gt_cases dP 106) as [|G]; [lia|].
      assert (2 ^ 106 <= 2 ^ (dP - 1)) by (apply Z.pow_le_mono_r; lia). nia. }
  destruct (binary_round_aux_spec (M * mc) E) as [m [e [Hr [He Herr]]]];
    fold dP; try lia.
  rewrite Hr in Hx. exists (S754_finite false m e), (Z.pos m / 2 ^ (- e)).
  split; [exact Hx|]. split.
  { unfold py_int. replace (0 <=? e) with false by (symmetry; apply Z.leb_gt; lia).
    reflexivity. }
  rewrite Pos2Z.inj_mul in Herr.
  set (g := - e) in *. set (s := e - E) in *.
  set (F := Z.pos m / 2 ^ g).
  assert (HG : 0 < 2 ^ g) by (apply pow_pos'; lia).
  assert (HS : 0 < 2 ^ s) by (apply pow_pos'; lia).
  assert (Hgs : 2 ^ g * 2 ^ s = A * 2 ^ K)
    by (unfold A; rewrite <- !Z.pow_add_r by lia; f_equal; lia).
  assert (Hdiv1 : 2 ^ g * F <= Z.pos m) by (apply Z.mul_div_le; lia).
  assert (Hdiv2 : Z.pos m < 2 ^ g * (F + 1)).
  { unfold F. rewrite Z.add_1_r. apply Z.mul_succ_div_gt; lia. }
  assert (Hs1 : 2 ^ (s - 1) < 2 ^ s).
  { destruct (Z.eq_dec s 0) as [->|]; [simpl; lia|].
    apply Z.pow_lt_mono_r; lia. }
  assert (Hs2 : 2 ^ (s - 1) <= 2 ^ 53) by (apply Z.pow_le_mono_r; lia).
  apply Z.abs_le in Herr.
  rewrite HMv in Herr.
  split; [|split].
  - apply (Z.mul_lt_mono_pos_r A); [exact HA|].
    assert (H1 : (Z.pos m + 1) * 2 ^ s <= 2 ^ g * (F + 1) * 2 ^ s)
      by (apply Z.mul_le_mono_nonneg_r; lia).
    replace (2 ^ g * (F + 1) * 2 ^ s) with ((F + 1) * 2 ^ K * A) in H1
      by (transitivity ((F + 1) * (2 ^ g * 2 ^ s)); [rewrite Hgs|]; ring).
    rewrite Z.mul_add_distr_r, Z.mul_1_l in H1.
    replace (Z.pos tp * Z.pos mc * A) with (Z.pos tp * A * Z.pos mc) by ring.
    clear - H1 Herr Hs1. lia.
  - rewrite (Z.mul_le_mono_pos_r _ _ A HA).
    assert (H2 : 2 ^ g * F * 2 ^ s <= Z.pos m * 2 ^ s)
      by (apply Z.mul_le_mono_nonneg_r; lia).
    replace (2 ^ g * F * 2 ^ s) with (F * 2 ^ K * A) in H2
      by (transitivity (F * (2 ^ g * 2 ^ s)); [rewrite Hgs|]; ring).
    assert (H3 : 2 * 2 ^ (d - 1) * A <= 2 * Z.pos tp * A)
      by (apply Z.mul_le_mono_nonneg_r; lia).
    replace ((Z.pos tp * Z.pos mc + 2 * Z.pos tp) * A)
      with (Z.pos tp * A * Z.pos mc + 2 * Z.pos tp * A) by ring.
    clear - H2 H3 Herr Hs2 HA53. lia.
  - intros n Hn.
    assert (Hs53 : 2 ^ dP <= 2 ^ 54 * 2 ^ (s - 1))
      by (rewrite <- Z.pow_add_r by lia; apply Z.pow_le_mono_r; lia).
    assert (HsS : 2 ^ s = 2 * 2 ^ (s - 1))
      by (rewrite <- Z.pow_succ_r by lia; f_equal; lia).
    assert (HnA : 2 ^ 54 * Z.abs (n * 2 ^ K * A - Z.pos tp * A * Z.pos mc)
                  < Z.pos tp * A * Z.pos mc).
    { replace (n * 2 ^ K * A - Z.pos tp * A * Z.pos mc)
        with ((n * 2 ^ K - Z.pos tp * Z.pos mc) * A) by ring.
      rewrite Z.abs_mul, (Z.abs_eq A) by lia.
      replace (Z.pos tp * A * Z.pos mc) with (Z.pos tp * Z.pos mc * A) by ring.
      rewrite Z.mul_assoc. apply Z.mul_lt_mono_pos_r; [exact HA|exact Hn]. }
    assert (HY : Z.abs (n * 2 ^ K * A - Z.pos tp * A * Z.pos mc) < 2 ^ (s - 1)).
    { apply (Z.mul_lt_mono_pos_l (2 ^ 54)); [lia|].
      rewrite <- HMv in HnA |- *. clear - HnA HP Hs53. lia. }
    replace (n * 2 ^ K * A) with (n * 2 ^ g * 2 ^ s) in HY
      by (transitivity (n * (2 ^ g * 2 ^ s)); [ring|rewrite Hgs; ring]).
    apply Z.abs_lt in HY.
    assert (HD : - 2 ^ s < (Z.pos m - n * 2 ^ g) * 2 ^ s < 2 ^ s)
      by (clear - HY Herr HsS; lia).
    assert (HD0 : Z.pos m - n * 2 ^ g = 0) by (clear - HD HS; nia).
    unfold F. replace (Z.pos m) with (n * 2 ^ g) by (clear - HD0; lia).
    apply Z.div_mul. lia.
Qed.

Lemma int_mul_float_floor (t : Z) (mc : positive) (K : Z) :
  0 <= t < 2 ^ 40 -> 2 ^ 52 <= Z.pos mc < 2 ^ 53 -> 53 <= K <= 60 ->
  exists f F,
    int_mul_float t (S754_finite false mc (- K)) = Ok f /\ py_int f = Ok F /\
    t * Z.pos mc < (F + 1) * 2 ^ K /\ F * 2 ^ K <= t * Z.pos mc + 2 * t.
Proof.
  intros Ht Hm HK.
  destruct (int_mul_float_round t mc K Ht Hm HK) as [f [F [Hf [HF [B1 [B2 _]]]]]].
  exists f, F. auto.
Qed.

Lemma LEVEL_ENERGY_DISTRIBUTION_bits :
  dict_index EnergyLevel_beq LEVEL_ENERGY_DISTRIBUTION LEVEL_3 =
    Ok (S754_finite false 4953959590107546 (-53)) /\
  dict_index EnergyLevel_beq LEVEL_ENERGY_DISTRIBUTION LEVEL_2 =
    Ok (S754_finite false 5944751508129055 (-54)) /\
  dict_index EnergyLevel_beq LEVEL_ENERGY_DISTRIBUTION LEVEL_1 =
    Ok (S754_finite false 8646911284551352 (-56)).
Proof. vm_compute. repeat split. Qed.


End Rounding.

(** * Construction lemmas *)

Section Construction.

Lemma bind_Ok_inv {A B : Type} (c : result A) (k : A -> result B) (y : B) :
  bind c k = Ok y -> exists a, c = Ok a /\ k a = Ok y.
Proof. destruct c as [a|e]; cbn [bind]; [eauto|discriminate]. Qed.

Ltac inv_bind H a Ha :=
  apply bind_Ok_inv in H; destruct H as [a [Ha H]].

(** The reconciliation of [_calculate_energy_profile]: the Inner level
    ([LEVEL_3]) takes the whole shortfall of the three floors. *)
Lemma split_levels_spec (t a b c : Z) :
  split_levels t = Ok (a, b, c) ->
  exists f1 f2 f3, level_floors t = Ok (f1, f2, f3) /\
    a = f1 /\ b = f2 /\ c = f3 + (t - (f1 + f2 + f3)).
Proof.
  unfold split_levels. intros H. inv_bind H fl Hfl.
  destruct fl as [[f1 f2] f3]. cbn in H.
  exists f1, f2, f3. split; [exact Hfl|].
  destruct (f1 + f2 + f3 =? t) eqn:E; cbn in H; injection H as <- <- <-.
  - apply Z.eqb_eq in E. lia.
  - lia.
Qed.

Lemma make_level_total (lvl : EnergyLevel) (q : Z) ratios (l : EnergyLevelQuanta) :
  make_level lvl q ratios = Ok l -> level_total_quanta l = q.
Proof.
  unfold make_level. intros H. inv_bind H dist Hd. injection H as <-. reflexivity.
Qed.

(** The profile built by [_calculate_energy_profile]: the total, and the
    three level records in the order [LEVEL_1], [LEVEL_2], [LEVEL_3]. *)
Lemma calculate_energy_profile_spec (self y : HybridElement) :
  calculate_energy_profile self = Ok y ->
  exists total a b c l1 l2 l3,
    split_levels total = Ok (a, b, c) /\
    level_total_quanta l1 = a /\ level_total_quanta l2 = b /\
    level_total_quanta l3 = c /\
    total_quanta (energy_profile y) = total /\
    level_quanta (energy_profile y) = [(LEVEL_1, l1); (LEVEL_2, l2); (LEVEL_3, l3)].
Proof.
  unfold calculate_energy_profile. intros H.
  inv_bind H f Hf. inv_bind H total Ht. inv_bind H lv Hlv.
  destruct lv as [[a b] c].
  inv_bind H l1 H1. inv_bind H l2 H2. inv_bind H l3 H3.
  inv_bind H q Hq. inv_bind H r Hr. injection H as <-.
  exists total, a, b, c, l1, l2, l3.
  repeat split; try assumption; eapply make_level_total; eassumption.
Qed.

Lemma dict_index_get {K V : Type} (eqb : K -> K -> bool) d k (v : V) :
  dict_index eqb d k = Ok v -> dict_get eqb d k = Some v.
Proof.
  unfold dict_index. destruct (dict_get eqb d k); [congruence|discriminate].
Qed.

(** [__post_init__]: the classification and the signature leave the
    profile as [_calculate_energy_profile] built it, and the signature is
    read off the Outer level's distribution. *)
Lemma post_init_spec (self x : HybridElement) :
  post_init self = Ok x ->
  exists y l1, calculate_energy_profile self = Ok y /\
    energy_profile x = energy_profile y /\
    dict_get EnergyLevel_beq (level_quanta (energy_profile y)) LEVEL_1 = Some l1 /\
    energy_signature x = signature_of_distribution (energy_distribution l1).
Proof.
  unfold post_init. intros H. inv_bind H y Hy.
  unfold generate_energy_signature in H.
  inv_bind H l1 Hl1. injection H as <-.
  exists y, l1. split; [exact Hy|].
  unfold determine_element_type_m in *.
  destruct (determine_element_type _ _) as [d t].
  cbn [energy_profile energy_signature set_energy_signature set_classification] in *.
  split; [reflexivity|]. split; [|reflexivity].
  apply dict_index_get. exact Hl1.
Qed.

Lemma signature_of_distribution_ext (d1 d2 : list (EnergyType * Z)) :
  (forall k, In k SIGNATURE_ORDER ->
     dict_get_default EnergyType_beq d1 k 0 = dict_get_default EnergyType_beq d2 k 0) ->
  signature_of_distribution d1 = signature_of_distribution d2.
Proof.
  intros H. unfold signature_of_distribution. f_equal.
  apply map_ext_in. intros k Hk. rewrite H by exact Hk. reflexivity.
Qed.

Lemma find_none_existsb {A : Type} (f : A -> bool) (l : list A) :
  existsb f l = false -> find f l = None.
Proof.
  induction l as [|a l IH]; cbn; [reflexivity|].
  destruct (f a); [discriminate|exact IH].
Qed.

End Construction.

(** * Properties of the element model *)

Section Properties.

(** The five outcomes of [_determine_element_type]. *)
Lemma determine_element_type_cases (z : Z) (configuration : string) :
  In (determine_element_type z configuration)
     [(HEAT, NON_METALS); (LIGHT, INERT_GASES); (RADIOWAVES, SEMI_METALS);
      (MAGNETISM, ACTIVE_METALS); (ELECTRICITY, MEDIUM_METALS)].
Proof.
  unfold determine_element_type.
  repeat match goal with
         | |- context [if ?c then _ else _] => destruct c
         end; cbn; tauto.
Qed.

(** C1: every successful construction has its three level records, their
    totals sum to [total_quanta] exactly, and they are the floors of
    [level_floors] with the whole shortfall added to the Inner level
    ([LEVEL_3]) only. *)
Theorem level_sum_invariant (nm sy : string) (z : Z) (mass : float)
    (nuc : NucleusStructure) (el : ElectronStructure) (x : HybridElement) :
  make_HybridElement nm sy z mass nuc el = Ok x ->
  exists l1 l2 l3 f1 f2 f3,
    level_of x LEVEL_1 = Some l1 /\ level_of x LEVEL_2 = Some l2 /\
    level_of x LEVEL_3 = Some l3 /\
    level_total_quanta l1 + level_total_quanta l2 + level_total_quanta l3
      = total_quanta (energy_profile x) /\
    level_floors (total_quanta (energy_profile x)) = Ok (f1, f2, f3) /\
    level_total_quanta l1 = f1 /\ level_total_quanta l2 = f2 /\
    level_total_quanta l3 = f3 + (total_quanta (energy_profile x) - (f1 + f2 + f3)).
Proof.
  unfold make_HybridElement. intros H.
  destruct (post_init_spec _ _ H) as [y [l [Hy [Hp _]]]].
  destruct (calculate_energy_profile_spec _ _ Hy)
    as [t [a [b [c [l1 [l2 [l3 [Hs [E1 [E2 [E3 [Ht Hl]]]]]]]]]]]].
  destruct (split_levels_spec _ _ _ _ Hs) as [f1 [f2 [f3 [Hf [Ha [Hb Hc]]]]]].
  exists l1, l2, l3, f1, f2, f3.
  unfold level_of. rewrite Hp, Hl, Ht. cbn.
  repeat split; try assumption; lia.
Qed.

Lemma level_sum_invariant_witness :
  exists l1 l2 l3 f1 f2 f3,
    level_of (ok_or blank_element sample_H) LEVEL_1 = Some l1 /\
    level_of (ok_or blank_element sample_H) LEVEL_2 = Some l2 /\
    level_of (ok_or blank_element sample_H) LEVEL_3 = Some l3 /\
    level_total_quanta l1 + level_total_quanta l2 + level_total_quanta l3
      = total_quanta (energy_profile (ok_or blank_element sample_H)) /\
    level_floors (total_quanta (energy_profile (ok_or blank_element sample_H)))
      = Ok (f1, f2, f3) /\
    level_total_quanta l1 = f1 /\ level_total_quanta l2 = f2 /\
    level_total_quanta l3 = f3 + (total_quanta (energy_profile (ok_or blank_element sample_H))
                                  - (f1 + f2 + f3)).
Proof.
  apply (level_sum_invariant "Водород"%string "H"%string 1 (lit 1008 3)
           (sample_nucleus (lit 999 3)) (sample_electrons "1s¹"%string (lit 13598 3))).
  vm_compute. reflexivity.
Defined.

(** C2: an element whose mass gives [total_quanta = int(1600 * 0.0005) = 0]
    is not built with a zero-percentage coefficient: the level split gives
    three empty levels and the division [level1.total_quanta / total] of
    the vibrational coefficient raises [ZeroDivisionError]. *)
Theorem zero_total_divides_by_zero :
  (let* f := int_mul_float 1600 (lit 5 4) in py_int f) = Ok 0 /\
  split_levels 0 = Ok (0, 0, 0) /\
  int_truediv 0 0 = Err ZeroDivisionError /\
  sample_tiny = Err ZeroDivisionError.
Proof. vm_compute. repeat split. Qed.

(** C3: the dominant energy the classifier assigns is the first match of
    the six ordered rules of the spec (hydrogen, [p⁶] suffix, [p³]/[p⁴]/[p⁵],
    [p¹]/[p²], [s¹] suffix, default [Electricity]); the classifier is a total
    function with no error outcome. *)
Theorem classifier_first_match (self : HybridElement) :
  dominant_energy (determine_element_type_m self)
  = classify_spec (atomic_number self) (configuration (electrons self)).
Proof.
  unfold determine_element_type_m, determine_element_type, classify_spec,
    classifier_rules.
  cbn [existsb].
  set (c := py_lower (configuration (electrons self))).
  destruct (atomic_number self =? 1); [reflexivity|].
  destruct (ends_with "p⁶" c); [reflexivity|].
  destruct (contains "p³" c), (contains "p⁴" c), (contains "p⁵" c);
    cbn; try reflexivity;
  destruct (contains "p¹" c), (contains "p²" c); cbn; try reflexivity;
  destruct (ends_with "s¹" c); reflexivity.
Qed.

(** C4: with [atomic_number = 1] the classifier yields [Heat] and
    [NonMetals] for every configuration string, although the string
    ["1s¹"] also matches the single-outer-[s] rule. *)
Theorem hydrogen_always_heat (configuration : string) :
  determine_element_type 1 configuration = (HEAT, NON_METALS) /\
  ends_with "s¹" (py_lower "1s¹") = true.
Proof. split; reflexivity. Qed.

(** C5 counterexample: the floors do not always fall strictly short.  At
    [total = 156800] (technetium, mass [98.0]) they sum to [total] exactly,
    and at [total = 8661577589682393] they sum to [total + 1]. *)
Lemma floor_shortfall_not_strict :
  ~ strict_shortfall 156800 /\ ~ strict_shortfall 8661577589682393 /\
  level_floors 156800 = Ok (18816, 51744, 86240) /\
  (let* f := int_mul_float 1600 (lit 980 1) in py_int f) = Ok 156800.
Proof.
  split; [|split]; [intros [f1 [f2 [f3 [H Hb]]]]..|split; vm_compute; reflexivity];
    vm_compute in H; injection H as <- <- <-; lia.
Qed.

(** C5 (amended): for every [0 <= total < 2^40] the three floors
    [int(total * 0.55)], [int(total * 0.33)], [int(total * 0.12)] sum to
    [total] or fall short of it by at most two units; the shortfall can be
    zero (see [floor_shortfall_not_strict]). *)
Lemma level_floors_shortfall (t : Z) :
  0 <= t < 2 ^ 40 ->
  exists f1 f2 f3, level_floors t = Ok (f1, f2, f3) /\
    0 <= t - (f1 + f2 + f3) <= 2.
Proof.
  intros Ht.
  destruct LEVEL_ENERGY_DISTRIBUTION_bits as [E3 [E2 E1]].
  destruct (int_mul_float_floor t 4953959590107546 53) as [g3 [f3 [G3 [P3 B3]]]];
    try (simpl; lia).
  destruct (int_mul_float_floor t 5944751508129055 54) as [g2 [f2 [G2 [P2 B2]]]];
    try (simpl; lia).
  destruct (int_mul_float_floor t 8646911284551352 56) as [g1 [f1 [G1 [P1 B1]]]];
    try (simpl; lia).
  change (- (53)) with (-53) in G3. change (- (54)) with (-54) in G2.
  change (- (56)) with (-56) in G1.
  exists f1, f2, f3. split.
  - unfold level_floors. rewrite E3, E2, E1. cbn [bind].
    rewrite G3, G2, G1. cbn [bind]. rewrite P3, P2, P1. reflexivity.
  - change (2 ^ 40) with 1099511627776 in Ht.
    change (2 ^ 53) with 9007199254740992 in B3.
    change (2 ^ 54) with 18014398509481984 in B2.
    change (2 ^ 56) with 72057594037927936 in B1.
    lia.
Qed.

Lemma level_floors_shortfall_witness :
  exists f1 f2 f3, level_floors 6404 = Ok (f1, f2, f3) /\
    0 <= 6404 - (f1 + f2 + f3) <= 2.
Proof. apply (level_floors_shortfall 6404). vm_compute. split; [discriminate|reflexivity]. Defined.

(** C6: the classifier's element type is the image of its dominant
    energy under [DOMINANT_ENERGY_TO_TYPE], a table of five distinct keys,
    and the four allocation-only categories are never its output. *)
Theorem classification_table (self : HybridElement) :
  dict_get EnergyType_beq DOMINANT_ENERGY_TO_TYPE
    (dominant_energy (determine_element_type_m self))
  = Some (element_type (determine_element_type_m self)) /\
  ~ In (dominant_energy (determine_element_type_m self))
       [MICRO_GRAVITY; MACRO_GRAVITY; THERMONUCLEAR; RADIOACTIVITY] /\
  List.length DOMINANT_ENERGY_TO_TYPE = 5%nat /\
  NoDup (map fst DOMINANT_ENERGY_TO_TYPE).
Proof.
  unfold determine_element_type_m.
  split; [|split; [|split]];
    [destruct (determine_element_type_cases (atomic_number self)
                 (configuration (electrons self))) as
       [<-|[<-|[<-|[<-|[<-|[]]]]]]; cbn ..| |].
  1-5: reflexivity.
  1-5: intuition discriminate.
  - reflexivity.
  - cbn. repeat constructor; cbn; intuition discriminate.
Qed.

(** C7: helium (atomic number 2, mass [4.0026]): [total_quanta = 6404], the
    floors are [768], [2113] and [3522], the Inner level receives the
    shortfall of one and holds [3523], and the Outer level's [Heat]
    category holds [307]. *)
Theorem helium_allocation :
  option_map row_mass (find (fun r => row_z r =? 2) ELEMENTS_DATA) = Some (lit 40026 4) /\
  level_floors 6404 = Ok (768, 2113, 3522) /\
  option_map allocation_summary (create_element 2)
  = Some (6404, Some 768, Some 2113, Some 3523, Some 307).
Proof. vm_compute. repeat split. Qed.

(** C8: the signature depends on the Outer-level allocation alone: two
    constructed elements whose Outer-level quanta agree on [Heat], [Light],
    [Magnetism], [Electricity] and [Radiowaves] have the same signature,
    whatever their other attributes. *)
Theorem signature_depends_on_outer
    (nm1 sy1 : string) (z1 : Z) (mass1 : float) (nuc1 : NucleusStructure)
    (el1 : ElectronStructure)
    (nm2 sy2 : string) (z2 : Z) (mass2 : float) (nuc2 : NucleusStructure)
    (el2 : ElectronStructure) (x y : HybridElement) :
  make_HybridElement nm1 sy1 z1 mass1 nuc1 el1 = Ok x ->
  make_HybridElement nm2 sy2 z2 mass2 nuc2 el2 = Ok y ->
  map (outer_quanta x) SIGNATURE_ORDER = map (outer_quanta y) SIGNATURE_ORDER ->
  energy_signature x = energy_signature y.
Proof.
  unfold make_HybridElement. intros Hx Hy Hq.
  destruct (post_init_spec _ _ Hx) as [x' [l1 [_ [Px [Gx Sx]]]]].
  destruct (post_init_spec _ _ Hy) as [y' [l2 [_ [Py [Gy Sy]]]]].
  rewrite Sx, Sy. apply signature_of_distribution_ext.
  intros k Hk.
  assert (Hk' : outer_quanta x k = outer_quanta y k).
  { revert Hk Hq. generalize SIGNATURE_ORDER as ks.
    induction ks as [|k' ks IH]; intros Hk Hq; [destruct Hk|].
    cbn [map] in Hq. injection Hq as Hh Ht.
    destruct Hk as [<-|Hk]; [exact Hh|exact (IH Hk Ht)]. }
  unfold outer_quanta, level_of in Hk'.
  rewrite Px, Py, Gx, Gy in Hk'. cbn in Hk'. injection Hk' as E. exact E.
Qed.

Lemma signature_depends_on_outer_witness :
  energy_signature (ok_or blank_element sample_H)
  = energy_signature (ok_or blank_element sample_H_variant).
Proof.
  apply (signature_depends_on_outer
           "Водород"%string "H"%string 1 (lit 1008 3)
           (sample_nucleus (lit 999 3)) (sample_electrons "1s¹"%string (lit 13598 3))
           "X"%string "Xx"%string 7 (lit 1008 3)
           (sample_nucleus (lit 5 1)) (sample_electrons "[He] 2s² 2p³"%string (lit 9 0)));
    vm_compute; reflexivity.
Defined.

(** C9: an atomic number with no row in [ELEMENTS_DATA] (for instance 119)
    makes [create_element] return [None]: the [try] block ends in
    [return None] without an exception. *)
Theorem missing_atomic_number (n : Z) :
  existsb (fun r => row_z r =? n) ELEMENTS_DATA = false ->
  create_element_try n = Ok None /\ create_element n = None.
Proof.
  intros H. unfold create_element, create_element_try.
  rewrite (find_none_existsb _ _ H). split; reflexivity.
Qed.

Lemma missing_atomic_number_witness :
  create_element_try 119 = Ok None /\ create_element 119 = None.
Proof. apply (missing_atomic_number 119). vm_compute. reflexivity. Defined.

Lemma ELEMENTS_DATA_ok : forallb row_ok ELEMENTS_DATA = true.
Proof. vm_compute. reflexivity. Qed.

Lemma ELEMENTS_DATA_length : List.length ELEMENTS_DATA = 118%nat.
Proof. reflexivity. Qed.

(** C10: each of the 118 rows of [ELEMENTS_DATA] has a mass of at least
    [1.008], its [total_quanta = int(1600 * mass)] is at least 1612, and the
    factory builds its element without an exception (in particular without
    the division by zero of C2), with that total. *)
Theorem table_rows_construct (r : ElementRow) :
  In r ELEMENTS_DATA ->
  List.length ELEMENTS_DATA = 118%nat /\
  PyFloat.leb (lit 1008 3) (row_mass r) = true /\
  exists f total x,
    int_mul_float 1600 (row_mass r) = Ok f /\ py_int f = Ok total /\
    1612 <= total /\
    create_element_try (row_z r) = Ok (Some x) /\
    create_element (row_z r) = Some x /\
    total_quanta (energy_profile x) = total.
Proof.
  intros Hr. split; [exact ELEMENTS_DATA_length|].
  pose proof (proj1 (forallb_forall row_ok ELEMENTS_DATA) ELEMENTS_DATA_ok r Hr) as H.
  unfold row_ok in H. apply andb_prop in H as [Hm H].
  split; [exact Hm|].
  destruct (int_mul_float 1600 (row_mass r)) as [f|e] eqn:Ef; [|discriminate].
  destruct (py_int f) as [total|e] eqn:Et; [|discriminate].
  apply andb_prop in H as [Ht H].
  unfold create_element.
  destruct (create_element_try (row_z r)) as [[x|]|e] eqn:Ec; try discriminate.
  exists f, total, x. apply Z.leb_le in Ht. apply Z.eqb_eq in H.
  repeat split; assumption.
Qed.

Lemma table_rows_construct_witness :
  List.length ELEMENTS_DATA = 118%nat /\
  PyFloat.leb (lit 1008 3) (lit 1008 3) = true /\
  exists f total x,
    int_mul_float 1600 (lit 1008 3) = Ok f /\ py_int f = Ok total /\
    1612 <= total /\
    create_element_try 1 = Ok (Some x) /\
    create_element 1 = Some x /\
    total_quanta (energy_profile x) = total.
Proof.
  apply (table_rows_construct
           (row 1 "H" "Водород" (lit 1008 3) "1s¹" (1, 0) (lit 999 3) (lit 13598 3))).
  simpl. left. reflexivity.
Defined.

End Properties.


(** * Decimal ratios: [int(q * r)] is the exact decimal floor *)

Section Ratios.

(** [int(q * c)] for a ratio literal [c] of [num / 100] with mantissa
    [mc] and exponent [-K]: by [int_mul_float_round] the product rounds to
    the exact decimal floor [q * num / 100]. *)
Ltac ratio_floor mc K :=
  intros Hq;
  destruct (int_mul_float_round _ mc K Hq ltac:(simpl; lia) ltac:(lia))
    as [f [F [Hf [HF [B1 [B2 Hex]]]]]];
  cbn [Z.opp] in Hf; exists f; split; [exact Hf|]; rewrite HF; f_equal;
  let b := eval vm_compute in (2 ^ K) in change (2 ^ K) with b in B1, B2, Hex;
  change (2 ^ 40) with 1099511627776 in Hq;
  try change (2 ^ 54) with 18014398509481984 in Hex;
  match goal with
  | |- _ = ?q * ?n / 100 =>
      pose proof (Z.div_mod (q * n) 100 ltac:(lia)) as Hd;
      pose proof (Z.mod_pos_bound (q * n) 100 ltac:(lia)) as Hr;
      set (N := q * n / 100) in *; set (r := (q * n) mod 100) in *;
      clearbody N r;
      destruct (Z.eq_dec q 0); [clear Hex; lia|];
      destruct (Z.eq_dec r 0) as [R|R];
      [ first [ clear Hex; lia
              | apply Hex;
                match goal with |- _ * Z.abs ?x < _ =>
                  let c := eval vm_compute in (100 * Z.pos mc - n * b) in
                  assert (HX : 100 * x = - (q * c)) by (clear Hex; lia);
                  generalize dependent x; intros; clear Hex; lia end ]
      | clear Hex; lia ]
  end.
Lemma ratio_40 (q : Z) : 0 <= q < 2 ^ 40 ->
  exists f, int_mul_float q (S754_finite false 7205759403792794 (-54)) = Ok f /\
            py_int f = Ok (q * 40 / 100).
Proof. ratio_floor 7205759403792794%positive 54. Qed.
Lemma ratio_30 (q : Z) : 0 <= q < 2 ^ 40 ->
  exists f, int_mul_float q (S754_finite false 5404319552844595 (-54)) = Ok f /\
            py_int f = Ok (q * 30 / 100).
Proof. ratio_floor 5404319552844595%positive 54. Qed.
Lemma ratio_20 (q : Z) : 0 <= q < 2 ^ 40 ->
  exists f, int_mul_float q (S754_finite false 7205759403792794 (-55)) = Ok f /\
            py_int f = Ok (q * 20 / 100).
Proof. ratio_floor 7205759403792794%positive 55. Qed.
Lemma ratio_6 (q : Z) : 0 <= q < 2 ^ 40 ->
  exists f, int_mul_float q (S754_finite false 8646911284551352 (-57)) = Ok f /\
            py_int f = Ok (q * 6 / 100).
Proof. ratio_floor 8646911284551352%positive 57. Qed.
Lemma ratio_4 (q : Z) : 0 <= q < 2 ^ 40 ->
  exists f, int_mul_float q (S754_finite false 5764607523034235 (-57)) = Ok f /\
            py_int f = Ok (q * 4 / 100).
Proof. ratio_floor 5764607523034235%positive 57. Qed.
Lemma ratio_50 (q : Z) : 0 <= q < 2 ^ 40 ->
  exists f, int_mul_float q (S754_finite false 4503599627370496 (-53)) = Ok f /\
            py_int f = Ok (q * 50 / 100).
Proof. ratio_floor 4503599627370496%positive 53. Qed.
Lemma ratio_60 (q : Z) : 0 <= q < 2 ^ 40 ->
  exists f, int_mul_float q (S754_finite false 5404319552844595 (-53)) = Ok f /\
            py_int f = Ok (q * 60 / 100).
Proof. ratio_floor 5404319552844595%positive 53. Qed.
Lemma ratio_25 (q : Z) : 0 <= q < 2 ^ 40 ->
  exists f, int_mul_float q (S754_finite false 4503599627370496 (-54)) = Ok f /\
            py_int f = Ok (q * 25 / 100).
Proof. ratio_floor 4503599627370496%positive 54. Qed.
Lemma ratio_15 (q : Z) : 0 <= q < 2 ^ 40 ->
  exists f, int_mul_float q (S754_finite false 5404319552844595 (-55)) = Ok f /\
            py_int f = Ok (q * 15 / 100).
Proof. ratio_floor 5404319552844595%positive 55. Qed.
Lemma ratio_55 (q : Z) : 0 <= q < 2 ^ 40 ->
  exists f, int_mul_float q (S754_finite false 4953959590107546 (-53)) = Ok f /\
            py_int f = Ok (q * 55 / 100).
Proof. ratio_floor 4953959590107546%positive 53. Qed.
Lemma ratio_33 (q : Z) : 0 <= q < 2 ^ 40 ->
  exists f, int_mul_float q (S754_finite false 5944751508129055 (-54)) = Ok f /\
            py_int f = Ok (q * 33 / 100).
Proof. ratio_floor 5944751508129055%positive 54. Qed.
Lemma ratio_12 (q : Z) : 0 <= q < 2 ^ 40 ->
  exists f, int_mul_float q (S754_finite false 8646911284551352 (-56)) = Ok f /\
            py_int f = Ok (q * 12 / 100).
Proof. ratio_floor 8646911284551352%positive 56. Qed.

(** The binary64 values of the ratio literals of the configuration. *)
Lemma FIRST_LEVEL_ENERGY_RATIO_bits :
  FIRST_LEVEL_ENERGY_RATIO =
  [(HEAT, S754_finite false 7205759403792794 (-54));
   (LIGHT, S754_finite false 5404319552844595 (-54));
   (MAGNETISM, S754_finite false 7205759403792794 (-55));
   (ELECTRICITY, S754_finite false 8646911284551352 (-57));
   (RADIOWAVES, S754_finite false 5764607523034235 (-57))].
Proof. vm_compute. reflexivity. Qed.

Lemma SECOND_LEVEL_ENERGY_RATIO_bits :
  SECOND_LEVEL_ENERGY_RATIO =
  [(THERMONUCLEAR, S754_finite false 4503599627370496 (-53));
   (RADIOACTIVITY, S754_finite false 5404319552844595 (-54));
   (MICRO_GRAVITY, S754_finite false 7205759403792794 (-55))].
Proof. vm_compute. reflexivity. Qed.

Lemma THIRD_LEVEL_ENERGY_RATIO_bits :
  THIRD_LEVEL_ENERGY_RATIO =
  [(MACRO_GRAVITY, S754_finite false 5404319552844595 (-53));
   (MICRO_GRAVITY, S754_finite false 4503599627370496 (-54));
   (THERMONUCLEAR, S754_finite false 5404319552844595 (-55))].
Proof. vm_compute. reflexivity. Qed.

Ltac step_ratio H :=
  let f := fresh "f" in let F := fresh "F" in let P := fresh "P" in
  destruct H as [f [F P]]; rewrite F; cbn [bind]; rewrite P;
  cbn [bind fill_distribution].

Lemma make_level_1_floor (q : Z) : 0 <= q < 2 ^ 40 ->
  make_level LEVEL_1 q FIRST_LEVEL_ENERGY_RATIO =
  Ok {| level := LEVEL_1; level_total_quanta := q;
        energy_distribution := [(HEAT, q * 40 / 100); (LIGHT, q * 30 / 100);
          (MAGNETISM, q * 20 / 100); (ELECTRICITY, q * 6 / 100);
          (RADIOWAVES, q * 4 / 100)] |}.
Proof.
  intros Hq. rewrite FIRST_LEVEL_ENERGY_RATIO_bits. unfold make_level.
  cbn [fill_distribution].
  step_ratio (ratio_40 q Hq). step_ratio (ratio_30 q Hq). step_ratio (ratio_20 q Hq).
  step_ratio (ratio_6 q Hq). step_ratio (ratio_4 q Hq). reflexivity.
Qed.

Lemma make_level_2_floor (q : Z) : 0 <= q < 2 ^ 40 ->
  make_level LEVEL_2 q SECOND_LEVEL_ENERGY_RATIO =
  Ok {| level := LEVEL_2; level_total_quanta := q;
        energy_distribution := [(THERMONUCLEAR, q * 50 / 100);
          (RADIOACTIVITY, q * 30 / 100); (MICRO_GRAVITY, q * 20 / 100)] |}.
Proof.
  intros Hq. rewrite SECOND_LEVEL_ENERGY_RATIO_bits. unfold make_level.
  cbn [fill_distribution].
  step_ratio (ratio_50 q Hq). step_ratio (ratio_30 q Hq). step_ratio (ratio_20 q Hq).
  reflexivity.
Qed.

Lemma make_level_3_floor (q : Z) : 0 <= q < 2 ^ 40 ->
  make_level LEVEL_3 q THIRD_LEVEL_ENERGY_RATIO =
  Ok {| level := LEVEL_3; level_total_quanta := q;
        energy_distribution := [(MACRO_GRAVITY, q * 60 / 100);
          (MICRO_GRAVITY, q * 25 / 100); (THERMONUCLEAR, q * 15 / 100)] |}.
Proof.
  intros Hq. rewrite THIRD_LEVEL_ENERGY_RATIO_bits. unfold make_level.
  cbn [fill_distribution].
  step_ratio (ratio_60 q Hq). step_ratio (ratio_25 q Hq). step_ratio (ratio_15 q Hq).
  reflexivity.
Qed.

Lemma level_floors_floor (t : Z) : 0 <= t < 2 ^ 40 ->
  level_floors t = Ok (t * 12 / 100, t * 33 / 100, t * 55 / 100).
Proof.
  intros Ht. destruct LEVEL_ENERGY_DISTRIBUTION_bits as [E3 [E2 E1]].
  unfold level_floors. rewrite E3. cbn [bind].
  step_ratio (ratio_55 t Ht). rewrite E2. cbn [bind].
  step_ratio (ratio_33 t Ht). rewrite E1. cbn [bind].
  step_ratio (ratio_12 t Ht). reflexivity.
Qed.

(** The level split in closed form: the Inner level takes what the two
    outer floors leave. *)
Lemma split_levels_floor (t : Z) : 0 <= t < 2 ^ 40 ->
  split_levels t = Ok (t * 12 / 100, t * 33 / 100, t - t * 12 / 100 - t * 33 / 100).
Proof.
  intros Ht. unfold split_levels. rewrite (level_floors_floor t Ht). cbn [bind].
  destruct (_ =? t) eqn:E; cbn [negb]; f_equal; f_equal; [apply Z.eqb_eq in E|]; lia.
Qed.

End Ratios.

(** * Construction in closed form *)

Section ClosedForm.

Ltac inv_bind H a Ha :=
  apply bind_Ok_inv in H; destruct H as [a [Ha H]].

(** [_calculate_energy_profile] writes the profile only, from the total
    and the three level records built by [make_level]. *)
Lemma calculate_energy_profile_levels (self y : HybridElement) :
  calculate_energy_profile self = Ok y ->
  exists total a b c l1 l2 l3,
    split_levels total = Ok (a, b, c) /\
    make_level LEVEL_1 a FIRST_LEVEL_ENERGY_RATIO = Ok l1 /\
    make_level LEVEL_2 b SECOND_LEVEL_ENERGY_RATIO = Ok l2 /\
    make_level LEVEL_3 c THIRD_LEVEL_ENERGY_RATIO = Ok l3 /\
    total_quanta (energy_profile y) = total /\
    level_quanta (energy_profile y) = [(LEVEL_1, l1); (LEVEL_2, l2); (LEVEL_3, l3)] /\
    y = set_energy_profile self (energy_profile y).
Proof.
  unfold calculate_energy_profile. intros H.
  inv_bind H f Hf. inv_bind H total Ht. inv_bind H lv Hlv.
  destruct lv as [[a b] c].
  inv_bind H l1 H1. inv_bind H l2 H2. inv_bind H l3 H3.
  inv_bind H q Hq. inv_bind H r Hr. injection H as <-.
  exists total, a, b, c, l1, l2, l3. repeat split; assumption.
Qed.

(** [__post_init__] keeps the six constructor fields; the classification
    is [_determine_element_type]'s, the profile [_calculate_energy_profile]'s. *)
Lemma post_init_fields (self x : HybridElement) :
  post_init self = Ok x ->
  exists y, calculate_energy_profile self = Ok y /\
    energy_profile x = energy_profile y /\
    name x = name self /\ symbol x = symbol self /\
    atomic_number x = atomic_number self /\ atomic_mass x = atomic_mass self /\
    nucleus x = nucleus self /\ electrons x = electrons self /\
    (dominant_energy x, element_type x)
      = determine_element_type (atomic_number self) (configuration (electrons self)).
Proof.
  unfold post_init. intros H. inv_bind H y Hy.
  unfold generate_energy_signature in H. inv_bind H l1 Hl1. injection H as <-.
  exists y. split; [exact Hy|].
  destruct (calculate_energy_profile_levels _ _ Hy) as [? [? [? [? [? [? [? [_ [_ [_ [_ [_ [_ Ey]]]]]]]]]]]]].
  rewrite Ey. unfold determine_element_type_m.
  cbn [set_energy_profile atomic_number electrons].
  destruct (determine_element_type _ _) as [d t].
  cbn. repeat split; reflexivity.
Qed.

Lemma constructed_levels (nm sy : string) (z : Z) (mass : float)
    (nuc : NucleusStructure) (el : ElectronStructure) (x : HybridElement) :
  make_HybridElement nm sy z mass nuc el = Ok x ->
  0 <= total_quanta (energy_profile x) < 2 ^ 40 ->
  let t := total_quanta (energy_profile x) in
  let q1 := t * 12 / 100 in let q2 := t * 33 / 100 in let q3 := t - q1 - q2 in
  level_quanta (energy_profile x) =
    [(LEVEL_1, {| level := LEVEL_1; level_total_quanta := q1;
                  energy_distribution := [(HEAT, q1 * 40 / 100); (LIGHT, q1 * 30 / 100);
                    (MAGNETISM, q1 * 20 / 100); (ELECTRICITY, q1 * 6 / 100);
                    (RADIOWAVES, q1 * 4 / 100)] |});
     (LEVEL_2, {| level := LEVEL_2; level_total_quanta := q2;
                  energy_distribution := [(THERMONUCLEAR, q2 * 50 / 100);
                    (RADIOACTIVITY, q2 * 30 / 100); (MICRO_GRAVITY, q2 * 20 / 100)] |});
     (LEVEL_3, {| level := LEVEL_3; level_total_quanta := q3;
                  energy_distribution := [(MACRO_GRAVITY, q3 * 60 / 100);
                    (MICRO_GRAVITY, q3 * 25 / 100); (THERMONUCLEAR, q3 * 15 / 100)] |})] /\
  energy_signature x =
    ("HE" ++ py_str_int (q1 * 40 / 100) ++ "-LI" ++ py_str_int (q1 * 30 / 100) ++
     "-MA" ++ py_str_int (q1 * 20 / 100) ++ "-EL" ++ py_str_int (q1 * 6 / 100) ++
     "-RA" ++ py_str_int (q1 * 4 / 100))%string.
Proof.
  intros H Ht t q1 q2 q3. subst t q1 q2 q3. unfold make_HybridElement in H.
  destruct (post_init_spec _ _ H) as [y [l [Hy [Hp [Hl Hs]]]]].
  destruct (calculate_energy_profile_levels _ _ Hy)
    as [t [a [b [c [l1 [l2 [l3 [Hsp [H1 [H2 [H3 [Et [El _]]]]]]]]]]]]].
  rewrite Hp, Et in *.
  rewrite (split_levels_floor t Ht) in Hsp. injection Hsp as <- <- <-.
  assert (B1 : 0 <= t * 12 / 100 <= t)
    by (split; [apply Z.div_pos|apply Z.div_le_upper_bound]; lia).
  assert (B2 : 0 <= t * 33 / 100 <= t)
    by (split; [apply Z.div_pos|apply Z.div_le_upper_bound]; lia).
  assert (B3 : 0 <= t - t * 12 / 100 - t * 33 / 100 <= t).
  { pose proof (Z.div_mod (t * 12) 100 ltac:(lia)).
    pose proof (Z.div_mod (t * 33) 100 ltac:(lia)).
    pose proof (Z.mod_pos_bound (t * 12) 100 ltac:(lia)).
    pose proof (Z.mod_pos_bound (t * 33) 100 ltac:(lia)). lia. }
  rewrite make_level_1_floor in H1 by lia. rewrite make_level_2_floor in H2 by lia.
  rewrite make_level_3_floor in H3 by lia.
  injection H1 as <-. injection H2 as <-. injection H3 as <-.
  rewrite El. split; [reflexivity|].
  rewrite El in Hl. cbn in Hl. injection Hl as <-. rewrite Hs. reflexivity.
Qed.

Lemma constructed_energy_totals (nm sy : string) (z : Z) (mass : float)
    (nuc : NucleusStructure) (el : ElectronStructure) (x : HybridElement) :
  make_HybridElement nm sy z mass nuc el = Ok x ->
  0 <= total_quanta (energy_profile x) < 2 ^ 40 ->
  let t := total_quanta (energy_profile x) in
  let q1 := t * 12 / 100 in let q2 := t * 33 / 100 in let q3 := t - q1 - q2 in
  map (get_total_energy_quanta x) ENERGY_TYPES =
    [q1 * 40 / 100; q1 * 30 / 100; q1 * 20 / 100; q1 * 6 / 100; q1 * 4 / 100;
     q2 * 20 / 100 + q3 * 25 / 100; q3 * 60 / 100;
     q2 * 50 / 100 + q3 * 15 / 100; q2 * 30 / 100].
Proof.
  intros H Ht t q1 q2 q3.
  destruct (constructed_levels _ _ _ _ _ _ _ H Ht) as [El _].
  fold t q1 q2 q3 in El.
  unfold get_total_energy_quanta. rewrite El. cbn.
  rewrite !Z.add_0_r. reflexivity.
Qed.

Ltac floor_facts :=
  repeat match goal with
  | |- context [?a / 100] =>
      let D := fresh "D" in let M := fresh "M" in
      pose proof (Z.div_mod a 100 ltac:(lia)) as D;
      pose proof (Z.mod_pos_bound a 100 ltac:(lia)) as M;
      generalize dependent (a / 100); generalize dependent (a mod 100); intros
  end.

Lemma constructed_energy_sum (nm sy : string) (z : Z) (mass : float)
    (nuc : NucleusStructure) (el : ElectronStructure) (x : HybridElement) :
  make_HybridElement nm sy z mass nuc el = Ok x ->
  0 <= total_quanta (energy_profile x) < 2 ^ 40 ->
  total_quanta (energy_profile x) - 8
    <= fold_left (fun acc et => acc + get_total_energy_quanta x et) ENERGY_TYPES 0
    <= total_quanta (energy_profile x).
Proof.
  intros H Ht.
  pose proof (constructed_energy_totals _ _ _ _ _ _ _ H Ht) as E. cbv zeta in E.
  change (fold_left _ ENERGY_TYPES 0) with
    (fold_left Z.add (map (get_total_energy_quanta x) ENERGY_TYPES) 0).
  rewrite E. cbn [fold_left].
  generalize dependent (total_quanta (energy_profile x)). intros t _ Ht.
  floor_facts. lia.
Qed.

Lemma py_range_In (a b z : Z) : In z (py_range a b) <-> a <= z < b.
Proof.
  unfold py_range. rewrite in_map_iff. split.
  - intros [i [<- Hi]]. apply in_seq in Hi. lia.
  - intros Hz. exists (Z.to_nat (z - a)). split; [lia|]. apply in_seq. lia.
Qed.

Lemma ELEMENTS_DATA_numbers : map row_z ELEMENTS_DATA = py_range 1 119.
Proof. vm_compute. reflexivity. Qed.

(** [create_element] copies the row it finds into the element. *)
Lemma create_element_try_fields (n : Z) (x : HybridElement) :
  create_element_try n = Ok (Some x) ->
  exists r, find (fun item => row_z item =? n) ELEMENTS_DATA = Some r /\
    atomic_number x = row_z r /\ name x = row_name r /\ symbol x = row_symbol r /\
    atomic_mass x = row_mass r /\ configuration (electrons x) = row_config r /\
    ionization_energy (electrons x) = row_ionization r /\
    stability (nucleus x) = row_stability r /\
    (protons (nucleus x), neutrons (nucleus x)) = row_isotope r.
Proof.
  unfold create_element_try. destruct (find _ _) as [r|] eqn:Ef; [|discriminate].
  destruct (row_isotope r) as [p nn] eqn:Ei. intros H.
  inv_bind H be Hbe. inv_bind H e He. injection H as <-.
  unfold make_HybridElement in He.
  destruct (post_init_fields _ _ He) as [y [_ [_ [Hn [Hs [Hz [Hm [Hnu [Hel _]]]]]]]]].
  exists r. rewrite Hn, Hs, Hz, Hm, Hnu, Hel. cbn. rewrite Ei.
  repeat split; reflexivity.
Qed.

Lemma create_element_domain (z : Z) :
  (1 <= z <= 118 ->
   exists r x, In r ELEMENTS_DATA /\ row_z r = z /\ create_element z = Some x /\
     atomic_number x = z /\ name x = row_name r /\ symbol x = row_symbol r /\
     atomic_mass x = row_mass r /\ configuration (electrons x) = row_config r) /\
  (z < 1 \/ 118 < z -> create_element z = None).
Proof.
  split.
  - intros Hz.
    destruct (find (fun item => row_z item =? z) ELEMENTS_DATA) as [r|] eqn:Ef.
    + apply find_some in Ef as [Hr Ez]. apply Z.eqb_eq in Ez.
      pose proof (proj1 (forallb_forall row_ok ELEMENTS_DATA) ELEMENTS_DATA_ok r Hr) as H.
      unfold row_ok in H. apply andb_prop in H as [_ H].
      destruct (int_mul_float 1600 (row_mass r)) as [f|]; [|discriminate].
      destruct (py_int f) as [t|]; [|discriminate].
      apply andb_prop in H as [_ H].
      destruct (create_element_try (row_z r)) as [[x|]|] eqn:Ec; try discriminate.
      destruct (create_element_try_fields _ _ Ec)
        as [r' [Ef' [Hz' [Hn [Hs [Hm [Hc _]]]]]]].
      rewrite Ez in Ef'.
      exists r', x. apply find_some in Ef' as [Hr' Ez'].
      apply Z.eqb_eq in Ez'. rewrite <- Ez.
      unfold create_element. rewrite Ec.
      repeat split; try assumption; congruence.
    + exfalso.
      assert (Hin : In z (map row_z ELEMENTS_DATA))
        by (rewrite ELEMENTS_DATA_numbers; apply py_range_In; lia).
      apply in_map_iff in Hin as [r [Ez Hr]].
      pose proof (find_none _ _ Ef r Hr) as Hf. cbn beta in Hf.
      rewrite Ez, Z.eqb_refl in Hf. discriminate.
  - intros Hz. unfold create_element, create_element_try.
    rewrite find_none_existsb; [reflexivity|].
    destruct (existsb _ _) eqn:Ex; [|reflexivity]. exfalso.
    apply existsb_exists in Ex as [r [Hr Ez]]. apply Z.eqb_eq in Ez.
    assert (Hin : In z (map row_z ELEMENTS_DATA)) by (rewrite <- Ez; apply in_map; exact Hr).
    rewrite ELEMENTS_DATA_numbers, py_range_In in Hin. lia.
Qed.

End ClosedForm.

(** * The periodic system *)

Section System.

Ltac inv_bind H a Ha :=
  apply bind_Ok_inv in H; destruct H as [a [Ha H]].

Lemma build_step_inv (s : HybridPeriodicSystem) (z : Z) :
  clusters_inv s ->
  exists s', build_step s z = Ok s' /\ clusters_inv s' /\
    elements s' = elements s ++ match create_element z with Some e => [e] | None => [] end.
Proof.
  unfold clusters_inv, build_step. intros H.
  destruct (create_element z) as [e|]; [|exists s; rewrite app_nil_r; auto].
  rewrite H. destruct (element_type e) eqn:Et; cbn;
    (eexists; split; [reflexivity|]); cbn; split; try reflexivity;
    rewrite !filter_app; cbn; rewrite Et; cbn; rewrite ?app_nil_r; reflexivity.
Qed.

Lemma fold_build_inv (zs : list Z) (s : HybridPeriodicSystem) :
  clusters_inv s ->
  exists s', fold_result build_step zs s = Ok s' /\ clusters_inv s' /\
    elements s' = elements s ++
      flat_map (fun z => match create_element z with Some e => [e] | None => [] end) zs.
Proof.
  revert s. induction zs as [|z zs IH]; intros s Hs.
  - exists s. rewrite app_nil_r. auto.
  - destruct (build_step_inv s z Hs) as [s1 [E1 [I1 L1]]].
    destruct (IH s1 I1) as [s2 [E2 [I2 L2]]].
    exists s2. cbn [fold_result]. rewrite E1. cbn [bind].
    split; [exact E2|]. split; [exact I2|].
    rewrite L2, L1, <- app_assoc. reflexivity.
Qed.

Lemma summary_total_inv (s : HybridPeriodicSystem) :
  clusters_inv s -> summary_total s = Z.of_nat (List.length (elements s)).
Proof.
  unfold clusters_inv, summary_total. intros ->. cbn.
  induction (elements s) as [|e l IH]; [reflexivity|].
  cbn [filter List.length]. destruct (element_type e); cbn [ElementType_beq];
    cbn [List.length] in *; lia.
Qed.

Lemma py_range_succ (a b : Z) : a <= b -> py_range a (b + 1) = py_range a b ++ [b].
Proof.
  intros H. unfold py_range.
  replace (Z.to_nat (b + 1 - a)) with (S (Z.to_nat (b - a))) by lia.
  rewrite seq_S, map_app. cbn. do 2 f_equal. lia.
Qed.

Lemma py_range_empty (a b : Z) : b <= a -> py_range a b = [].
Proof. intros H. unfold py_range. replace (Z.to_nat (b - a)) with 0%nat by lia. reflexivity. Qed.

Lemma filter_table_range (n : Z) :
  filter (fun z => (1 <=? z) && (z <=? 118)) (py_range 1 (n + 1))
  = py_range 1 (Z.min n 118 + 1).
Proof.
  destruct (Z.lt_ge_cases n 0) as [Hn|Hn].
  - rewrite !py_range_empty by lia. reflexivity.
  - pattern n. apply natlike_ind; [reflexivity| |exact Hn].
    intros m Hm IH. rewrite <- Z.add_1_r, py_range_succ by lia.
    rewrite filter_app, IH. cbn [filter].
    destruct (Z.le_gt_cases (m + 1) 118).
    + replace ((1 <=? m + 1) && (m + 1 <=? 118)) with true by (symmetry; apply andb_true_intro; split; apply Z.leb_le; lia).
      rewrite (Z.min_l m 118), (Z.min_l (m + 1) 118) by lia.
      rewrite (py_range_succ 1 (m + 1)) by lia. reflexivity.
    + replace ((1 <=? m + 1) && (m + 1 <=? 118)) with false by (symmetry; apply andb_false_intro2; apply Z.leb_gt; lia).
      rewrite app_nil_r, !Z.min_r by lia. reflexivity.
Qed.

Lemma created_numbers (zs : list Z) :
  map atomic_number (flat_map (fun z => match create_element z with Some e => [e] | None => [] end) zs)
  = filter (fun z => (1 <=? z) && (z <=? 118)) zs.
Proof.
  induction zs as [|z zs IH]; [reflexivity|].
  cbn [flat_map filter]. rewrite map_app, IH.
  destruct (create_element_domain z) as [In Out].
  destruct (Z.le_gt_cases 1 z), (Z.le_gt_cases z 118).
  - destruct (In ltac:(lia)) as [r [x [_ [_ [-> [Hx _]]]]]].
    replace ((1 <=? z) && (z <=? 118)) with true by (symmetry; apply andb_true_intro; split; apply Z.leb_le; lia).
    cbn. rewrite Hx. reflexivity.
  - rewrite Out by lia. replace ((1 <=? z) && (z <=? 118)) with false
      by (symmetry; apply andb_false_intro2; apply Z.leb_gt; lia). reflexivity.
  - rewrite Out by lia. replace ((1 <=? z) && (z <=? 118)) with false
      by (symmetry; apply andb_false_intro1; apply Z.leb_gt; lia). reflexivity.
  - lia.
Qed.

Lemma build_system_spec (n : Z) :
  exists s, build_system init_system n = Ok s /\ clusters_inv s /\
    elements s = flat_map (fun z => match create_element z with Some e => [e] | None => [] end)
                          (py_range 1 (n + 1)) /\
    map atomic_number (elements s) = py_range 1 (Z.min n 118 + 1).
Proof.
  destruct (fold_build_inv (py_range 1 (n + 1)) init_system eq_refl) as [s [E [I L]]].
  exists s. unfold build_system. split; [exact E|]. split; [exact I|].
  cbn [elements init_system app] in L. split; [exact L|].
  rewrite L, created_numbers. apply filter_table_range.
Qed.

Lemma add_energy_totals_spec (g : EnergyType -> Z) (e : HybridElement) :
  add_energy_totals (map (fun et => (et, g et)) ENERGY_TYPES) e
  = Ok (map (fun et => (et, g et + get_total_energy_quanta e et)) ENERGY_TYPES).
Proof. reflexivity. Qed.

Lemma fold_add_energy_totals (l : list HybridElement) (g : EnergyType -> Z) :
  fold_result add_energy_totals l (map (fun et => (et, g et)) ENERGY_TYPES)
  = Ok (map (fun et => (et, fold_left (fun acc e => acc + get_total_energy_quanta e et) l (g et)))
            ENERGY_TYPES).
Proof.
  revert g. induction l as [|e l IH]; intros g; [reflexivity|].
  cbn [fold_result]. rewrite add_energy_totals_spec. cbn [bind].
  exact (IH (fun et => g et + get_total_energy_quanta e et)).
Qed.

Lemma analyze_energy_distribution_spec (s : HybridPeriodicSystem) :
  analyze_energy_distribution s =
  Ok (fold_left (fun acc elem => acc + total_quanta (energy_profile elem)) (elements s) 0,
      map (fun et => (et, fold_left (fun acc e => acc + get_total_energy_quanta e et)
                                    (elements s) 0)) ENERGY_TYPES).
Proof.
  unfold analyze_energy_distribution.
  rewrite (fold_add_energy_totals (elements s) (fun _ => 0)). reflexivity.
Qed.

Lemma ELEMENTS_DATA_totals :
  forallb (fun r => match int_mul_float 1600 (row_mass r) with
                    | Ok f => match py_int f with Ok t => t <? 2 ^ 40 | Err _ => false end
                    | Err _ => false
                    end) ELEMENTS_DATA = true.
Proof. vm_compute. reflexivity. Qed.

(** An element the factory returns is a construction, with a total in
    [[1612, 2^40)]. *)
Lemma create_element_made (z : Z) (x : HybridElement) :
  create_element z = Some x ->
  (exists nm sy z' m nuc el, make_HybridElement nm sy z' m nuc el = Ok x) /\
  1612 <= total_quanta (energy_profile x) < 2 ^ 40.
Proof.
  unfold create_element. destruct (create_element_try z) as [[x'|]|] eqn:Ec;
    try discriminate. intros [= <-]. split.
  - unfold create_element_try in Ec. destruct (find _ _) as [r|]; [|discriminate].
    destruct (row_isotope r) as [p nn]. inv_bind Ec be Hbe. inv_bind Ec e He.
    injection Ec as <-. eauto 7.
  - destruct (create_element_try_fields _ _ Ec) as [r [Ef _]].
    apply find_some in Ef as [Hr Ez]. apply Z.eqb_eq in Ez.
    pose proof (proj1 (forallb_forall row_ok ELEMENTS_DATA) ELEMENTS_DATA_ok r Hr) as H.
    pose proof (proj1 (forallb_forall _ ELEMENTS_DATA) ELEMENTS_DATA_totals r Hr) as H'.
    cbn beta in H'.
    unfold row_ok in H. apply andb_prop in H as [_ H].
    destruct (int_mul_float 1600 (row_mass r)) as [f|]; [|discriminate].
    destruct (py_int f) as [t|]; [|discriminate].
    apply andb_prop in H as [Ht H]. rewrite Ez, Ec in H.
    apply Z.eqb_eq in H. apply Z.leb_le in Ht. apply Z.ltb_lt in H'. lia.
Qed.

Lemma fold_add_sum {A : Type} (h : A -> Z) (l : list A) (c : Z) :
  fold_left (fun a e => a + h e) l c = c + fold_right Z.add 0 (map h l).
Proof.
  revert c. induction l as [|e l IH]; intros c; cbn; [lia|]. rewrite IH. lia.
Qed.

Lemma energy_totals_bound (l : list HybridElement) :
  Forall (fun x => exists z, create_element z = Some x) l ->
  let T := fold_left (fun acc elem => acc + total_quanta (energy_profile elem)) l 0 in
  T - 8 * Z.of_nat (List.length l)
  <= fold_left (fun acc kv => acc + snd kv)
       (map (fun et => (et, fold_left (fun acc e => acc + get_total_energy_quanta e et) l 0))
            ENERGY_TYPES) 0
  <= T.
Proof.
  intros Hl T. subst T. cbn [map ENERGY_TYPES fold_left snd].
  rewrite !fold_add_sum. rewrite !Z.add_0_l.
  induction Hl as [|x l [z Hx] Hl IH]; cbn [map fold_right List.length]; [lia|].
  destruct (create_element_made z x Hx) as [[nm [sy [z' [m [nuc [el He]]]]]] Ht].
  pose proof (constructed_energy_sum _ _ _ _ _ _ _ He ltac:(lia)) as B.
  cbn [ENERGY_TYPES fold_left] in B. lia.
Qed.

Lemma built_elements_created (n : Z) (s : HybridPeriodicSystem) :
  elements s = flat_map (fun z => match create_element z with Some e => [e] | None => [] end)
                        (py_range 1 (n + 1)) ->
  Forall (fun x => exists z, create_element z = Some x) (elements s).
Proof.
  intros ->. apply Forall_forall. intros x Hx.
  apply in_flat_map in Hx as [z [_ Hz]].
  destruct (create_element z) as [e|] eqn:E; [|destruct Hz].
  destruct Hz as [<-|[]]. eauto.
Qed.

Lemma create_element_number (z : Z) (e : HybridElement) :
  create_element z = Some e -> atomic_number e = z.
Proof.
  intros H. destruct (create_element_domain z) as [In Out].
  destruct (Z.le_gt_cases 1 z), (Z.le_gt_cases z 118).
  - destruct (In ltac:(lia)) as [r [x [_ [_ [Hx [Hn _]]]]]]. congruence.
  - rewrite Out in H by lia. discriminate.
  - rewrite Out in H by lia. discriminate.
  - lia.
Qed.

Lemma find_created (zs : list Z) (z : Z) :
  find (fun e => atomic_number e =? z)
       (flat_map (fun z => match create_element z with Some e => [e] | None => [] end) zs)
  = if existsb (Z.eqb z) zs then create_element z else None.
Proof.
  induction zs as [|z' zs IH]; [reflexivity|]. cbn [flat_map existsb].
  destruct (create_element z') as [e|] eqn:E.
  - cbn [app find]. rewrite (create_element_number _ _ E).
    destruct (z' =? z) eqn:Ez.
    + apply Z.eqb_eq in Ez. subst z'. rewrite Z.eqb_refl. cbn. congruence.
    + replace (z =? z') with false by (rewrite Z.eqb_sym; exact (eq_sym Ez)).
      exact IH.
  - cbn [app]. rewrite IH. destruct (z =? z') eqn:Ez; cbn [orb]; [|reflexivity].
    apply Z.eqb_eq in Ez. subst z'. rewrite E. destruct (existsb _ _); reflexivity.
Qed.

Lemma existsb_py_range (a b z : Z) :
  existsb (Z.eqb z) (py_range a b) = (a <=? z) && (z <? b).
Proof.
  destruct (existsb _ _) eqn:E; symmetry.
  - apply existsb_exists in E as [y [Hy Ez]]. apply Z.eqb_eq in Ez. subst y.
    apply py_range_In in Hy. apply andb_true_intro. split; [apply Z.leb_le|apply Z.ltb_lt]; lia.
  - destruct (Z.le_gt_cases a z), (Z.lt_ge_cases z b).
    + exfalso. assert (Hin : In z (py_range a b)) by (apply py_range_In; lia).
      rewrite <- Bool.not_true_iff_false in E. apply E, existsb_exists.
      exists z. split; [exact Hin|apply Z.eqb_refl].
    + apply andb_false_intro2, Z.ltb_ge. lia.
    + apply andb_false_intro1, Z.leb_gt. lia.
    + apply andb_false_intro1, Z.leb_gt. lia.
Qed.

Lemma elements_to_compare_fold (l : list HybridElement) (zs : list Z) (acc : list HybridElement) :
  fold_left (fun acc z => match find (fun e => atomic_number e =? z) l with
                          | Some element => acc ++ [element] | None => acc end) zs acc
  = acc ++ flat_map (fun z => match find (fun e => atomic_number e =? z) l with
                              | Some element => [element] | None => [] end) zs.
Proof.
  revert acc. induction zs as [|z zs IH]; intros acc; cbn; [rewrite app_nil_r; reflexivity|].
  rewrite IH. destruct (find _ l); [rewrite <- app_assoc|]; reflexivity.
Qed.

Lemma elements_to_compare_built (n : Z) (s : HybridPeriodicSystem) (zs : list Z) :
  elements s = flat_map (fun z => match create_element z with Some e => [e] | None => [] end)
                        (py_range 1 (n + 1)) ->
  elements_to_compare s zs =
    flat_map (fun z => if (1 <=? z) && (z <=? n)
                       then match create_element z with Some e => [e] | None => [] end
                       else []) zs /\
  map atomic_number (elements_to_compare s zs)
    = filter (fun z => (1 <=? z) && (z <=? Z.min n 118)) zs.
Proof.
  intros Hs. unfold elements_to_compare. rewrite elements_to_compare_fold, Hs. cbn [app].
  assert (E : forall z, match find (fun e => atomic_number e =? z)
                          (flat_map (fun z => match create_element z with
                                              | Some e => [e] | None => [] end)
                                    (py_range 1 (n + 1))) with
                        | Some element => [element] | None => [] end
               = if (1 <=? z) && (z <=? n)
                 then match create_element z with Some e => [e] | None => [] end else []).
  { intros z. rewrite find_created, existsb_py_range.
    replace (z <? n + 1) with (z <=? n) by (destruct (Z.leb_spec z n), (Z.ltb_spec z (n + 1)); lia).
    destruct (_ && _); reflexivity. }
  split.
  - apply flat_map_ext. exact E.
  - rewrite (flat_map_ext _ _ E). induction zs as [|z zs IH]; [reflexivity|].
    cbn [flat_map filter]. rewrite map_app, IH.
    destruct (create_element_domain z) as [In Out].
    destruct (Z.le_gt_cases 1 z); [|rewrite (proj2 (Z.leb_gt 1 z)) by lia; reflexivity].
    rewrite (proj2 (Z.leb_le 1 z)) by lia. cbn [andb].
    destruct (Z.le_gt_cases z 118), (Z.le_gt_cases z n).
    + destruct (In ltac:(lia)) as [r [x [_ [_ [-> [Hx _]]]]]].
      rewrite (proj2 (Z.leb_le z n)), (proj2 (Z.leb_le z (Z.min n 118))) by lia.
      cbn. rewrite Hx. reflexivity.
    + rewrite (proj2 (Z.leb_gt z n)), (proj2 (Z.leb_gt z (Z.min n 118))) by lia. reflexivity.
    + rewrite (proj2 (Z.leb_le z n)), (proj2 (Z.leb_gt z (Z.min n 118))), Out by lia.
      reflexivity.
    + rewrite (proj2 (Z.leb_gt z n)), (proj2 (Z.leb_gt z (Z.min n 118))) by lia. reflexivity.
Qed.

End System.

(** * Further properties of the program *)

Section Extras.

(** X1: for [0 <= total < 2^40] the three floors of [_calculate_energy_profile]
    are the exact decimal floors [total * 12 // 100], [total * 33 // 100] and
    [total * 55 // 100], and after the reconciliation the Inner level holds
    [total] minus the two outer floors. *)
Theorem level_split_exact (t : Z) : 0 <= t < 2 ^ 40 ->
  level_floors t = Ok (t * 12 / 100, t * 33 / 100, t * 55 / 100) /\
  split_levels t = Ok (t * 12 / 100, t * 33 / 100, t - t * 12 / 100 - t * 33 / 100).
Proof.
  intros Ht. split; [exact (level_floors_floor t Ht)|exact (split_levels_floor t Ht)].
Qed.

Lemma level_split_exact_witness :
  level_floors 6404 = Ok (6404 * 12 / 100, 6404 * 33 / 100, 6404 * 55 / 100) /\
  split_levels 6404 = Ok (6404 * 12 / 100, 6404 * 33 / 100,
                          6404 - 6404 * 12 / 100 - 6404 * 33 / 100).
Proof. apply (level_split_exact 6404). split; [discriminate|reflexivity]. Defined.

(** X2: the loop over [FIRST_LEVEL_ENERGY_RATIO] fills the Outer level
    with the exact decimal floors [q * 40 // 100], [q * 30 // 100],
    [q * 20 // 100], [q * 6 // 100], [q * 4 // 100], keyed in the order
    of the ratio table, for every level total [0 <= q < 2^40]. *)
Theorem first_level_distribution_exact (q : Z) : 0 <= q < 2 ^ 40 ->
  make_level LEVEL_1 q FIRST_LEVEL_ENERGY_RATIO =
  Ok {| level := LEVEL_1; level_total_quanta := q;
        energy_distribution := [(HEAT, q * 40 / 100); (LIGHT, q * 30 / 100);
          (MAGNETISM, q * 20 / 100); (ELECTRICITY, q * 6 / 100);
          (RADIOWAVES, q * 4 / 100)] |}.
Proof. exact (make_level_1_floor q). Qed.

Lemma first_level_distribution_exact_witness :
  make_level LEVEL_1 768 FIRST_LEVEL_ENERGY_RATIO =
  Ok {| level := LEVEL_1; level_total_quanta := 768;
        energy_distribution := [(HEAT, 768 * 40 / 100); (LIGHT, 768 * 30 / 100);
          (MAGNETISM, 768 * 20 / 100); (ELECTRICITY, 768 * 6 / 100);
          (RADIOWAVES, 768 * 4 / 100)] |}.
Proof. apply (first_level_distribution_exact 768). split; [discriminate|reflexivity]. Defined.

(** X3: the loop over [SECOND_LEVEL_ENERGY_RATIO] fills the Middle level
    with [q * 50 // 100], [q * 30 // 100], [q * 20 // 100] for every
    [0 <= q < 2^40]. *)
Theorem second_level_distribution_exact (q : Z) : 0 <= q < 2 ^ 40 ->
  make_level LEVEL_2 q SECOND_LEVEL_ENERGY_RATIO =
  Ok {| level := LEVEL_2; level_total_quanta := q;
        energy_distribution := [(THERMONUCLEAR, q * 50 / 100);
          (RADIOACTIVITY, q * 30 / 100); (MICRO_GRAVITY, q * 20 / 100)] |}.
Proof. exact (make_level_2_floor q). Qed.

Lemma second_level_distribution_exact_witness :
  make_level LEVEL_2 2113 SECOND_LEVEL_ENERGY_RATIO =
  Ok {| level := LEVEL_2; level_total_quanta := 2113;
        energy_distribution := [(THERMONUCLEAR, 2113 * 50 / 100);
          (RADIOACTIVITY, 2113 * 30 / 100); (MICRO_GRAVITY, 2113 * 20 / 100)] |}.
Proof. apply (second_level_distribution_exact 2113). split; [discriminate|reflexivity]. Defined.

(** X4: the loop over [THIRD_LEVEL_ENERGY_RATIO] fills the Inner level
    with [q * 60 // 100], [q * 25 // 100], [q * 15 // 100] for every
    [0 <= q < 2^40]. *)
Theorem third_level_distribution_exact (q : Z) : 0 <= q < 2 ^ 40 ->
  make_level LEVEL_3 q THIRD_LEVEL_ENERGY_RATIO =
  Ok {| level := LEVEL_3; level_total_quanta := q;
        energy_distribution := [(MACRO_GRAVITY, q * 60 / 100);
          (MICRO_GRAVITY, q * 25 / 100); (THERMONUCLEAR, q * 15 / 100)] |}.
Proof. exact (make_level_3_floor q). Qed.

Lemma third_level_distribution_exact_witness :
  make_level LEVEL_3 3523 THIRD_LEVEL_ENERGY_RATIO =
  Ok {| level := LEVEL_3; level_total_quanta := 3523;
        energy_distribution := [(MACRO_GRAVITY, 3523 * 60 / 100);
          (MICRO_GRAVITY, 3523 * 25 / 100); (THERMONUCLEAR, 3523 * 15 / 100)] |}.
Proof. apply (third_level_distribution_exact 3523). split; [discriminate|reflexivity]. Defined.

(** X5: a successful construction keeps the six constructor arguments
    unchanged, and its dominant energy and element type are those
    [_determine_element_type] gives for the atomic number and the
    configuration passed in. *)
Theorem construction_keeps_fields (nm sy : string) (z : Z) (mass : float)
    (nuc : NucleusStructure) (el : ElectronStructure) (x : HybridElement) :
  make_HybridElement nm sy z mass nuc el = Ok x ->
  name x = nm /\ symbol x = sy /\ atomic_number x = z /\ atomic_mass x = mass /\
  nucleus x = nuc /\ electrons x = el /\
  (dominant_energy x, element_type x) = determine_element_type z (configuration el).
Proof.
  unfold make_HybridElement. intros H.
  destruct (post_init_fields _ _ H) as [y [_ [_ [Hn [Hs [Hz [Hm [Hnu [Hel Hd]]]]]]]]].
  cbn in *. repeat split; assumption.
Qed.

Lemma construction_keeps_fields_witness :
  name (ok_or blank_element sample_H) = "Водород"%string /\
  symbol (ok_or blank_element sample_H) = "H"%string /\
  atomic_number (ok_or blank_element sample_H) = 1 /\
  atomic_mass (ok_or blank_element sample_H) = lit 1008 3 /\
  nucleus (ok_or blank_element sample_H) = sample_nucleus (lit 999 3) /\
  electrons (ok_or blank_element sample_H) = sample_electrons "1s¹"%string (lit 13598 3) /\
  (dominant_energy (ok_or blank_element sample_H), element_type (ok_or blank_element sample_H))
  = determine_element_type 1 (configuration (sample_electrons "1s¹"%string (lit 13598 3))).
Proof.
  apply (construction_keeps_fields "Водород"%string "H"%string 1 (lit 1008 3)
           (sample_nucleus (lit 999 3)) (sample_electrons "1s¹"%string (lit 13598 3))).
  vm_compute. reflexivity.
Defined.

(** X6: a constructed element with [0 <= t < 2^40] quanta ([t] its
    [total_quanta]) has exactly three levels, in the order Outer, Middle,
    Inner, with totals [q1 = t * 12 // 100], [q2 = t * 33 // 100] and
    [q3 = t - q1 - q2], and each level's distribution is the exact decimal
    floor of its ratios. *)
Theorem constructed_levels_closed_form (nm sy : string) (z : Z) (mass : float)
    (nuc : NucleusStructure) (el : ElectronStructure) (x : HybridElement) :
  make_HybridElement nm sy z mass nuc el = Ok x ->
  0 <= total_quanta (energy_profile x) < 2 ^ 40 ->
  let t := total_quanta (energy_profile x) in
  let q1 := t * 12 / 100 in let q2 := t * 33 / 100 in let q3 := t - q1 - q2 in
  level_quanta (energy_profile x) =
    [(LEVEL_1, {| level := LEVEL_1; level_total_quanta := q1;
                  energy_distribution := [(HEAT, q1 * 40 / 100); (LIGHT, q1 * 30 / 100);
                    (MAGNETISM, q1 * 20 / 100); (ELECTRICITY, q1 * 6 / 100);
                    (RADIOWAVES, q1 * 4 / 100)] |});
     (LEVEL_2, {| level := LEVEL_2; level_total_quanta := q2;
                  energy_distribution := [(THERMONUCLEAR, q2 * 50 / 100);
                    (RADIOACTIVITY, q2 * 30 / 100); (MICRO_GRAVITY, q2 * 20 / 100)] |});
     (LEVEL_3, {| level := LEVEL_3; level_total_quanta := q3;
                  energy_distribution := [(MACRO_GRAVITY, q3 * 60 / 100);
                    (MICRO_GRAVITY, q3 * 25 / 100); (THERMONUCLEAR, q3 * 15 / 100)] |})].
Proof. intros H Ht. exact (proj1 (constructed_levels _ _ _ _ _ _ _ H Ht)). Qed.

Lemma constructed_levels_closed_form_witness :
  let t := total_quanta (energy_profile (ok_or blank_element sample_H)) in
  let q1 := t * 12 / 100 in let q2 := t * 33 / 100 in let q3 := t - q1 - q2 in
  level_quanta (energy_profile (ok_or blank_element sample_H)) =
    [(LEVEL_1, {| level := LEVEL_1; level_total_quanta := q1;
                  energy_distribution := [(HEAT, q1 * 40 / 100); (LIGHT, q1 * 30 / 100);
                    (MAGNETISM, q1 * 20 / 100); (ELECTRICITY, q1 * 6 / 100);
                    (RADIOWAVES, q1 * 4 / 100)] |});
     (LEVEL_2, {| level := LEVEL_2; level_total_quanta := q2;
                  energy_distribution := [(THERMONUCLEAR, q2 * 50 / 100);
                    (RADIOACTIVITY, q2 * 30 / 100); (MICRO_GRAVITY, q2 * 20 / 100)] |});
     (LEVEL_3, {| level := LEVEL_3; level_total_quanta := q3;
                  energy_distribution := [(MACRO_GRAVITY, q3 * 60 / 100);
                    (MICRO_GRAVITY, q3 * 25 / 100); (THERMONUCLEAR, q3 * 15 / 100)] |})].
Proof.
  apply (constructed_levels_closed_form "Водород"%string "H"%string 1 (lit 1008 3)
           (sample_nucleus (lit 999 3)) (sample_electrons "1s¹"%string (lit 13598 3)));
    vm_compute; [reflexivity|split; [discriminate|reflexivity]].
Defined.

(** X7: the signature of a constructed element with [0 <= t < 2^40] quanta
    is ["HE<a>-LI<b>-MA<c>-EL<d>-RA<e>"] with [a = q1 * 40 // 100],
    [b = q1 * 30 // 100], [c = q1 * 20 // 100], [d = q1 * 6 // 100],
    [e = q1 * 4 // 100] and [q1 = t * 12 // 100]. *)
Theorem constructed_signature_closed_form (nm sy : string) (z : Z) (mass : float)
    (nuc : NucleusStructure) (el : ElectronStructure) (x : HybridElement) :
  make_HybridElement nm sy z mass nuc el = Ok x ->
  0 <= total_quanta (energy_profile x) < 2 ^ 40 ->
  let q1 := total_quanta (energy_profile x) * 12 / 100 in
  energy_signature x =
    ("HE" ++ py_str_int (q1 * 40 / 100) ++ "-LI" ++ py_str_int (q1 * 30 / 100) ++
     "-MA" ++ py_str_int (q1 * 20 / 100) ++ "-EL" ++ py_str_int (q1 * 6 / 100) ++
     "-RA" ++ py_str_int (q1 * 4 / 100))%string.
Proof. intros H Ht. exact (proj2 (constructed_levels _ _ _ _ _ _ _ H Ht)). Qed.

Lemma constructed_signature_closed_form_witness :
  let q1 := total_quanta (energy_profile (ok_or blank_element sample_H)) * 12 / 100 in
  energy_signature (ok_or blank_element sample_H) =
    ("HE" ++ py_str_int (q1 * 40 / 100) ++ "-LI" ++ py_str_int (q1 * 30 / 100) ++
     "-MA" ++ py_str_int (q1 * 20 / 100) ++ "-EL" ++ py_str_int (q1 * 6 / 100) ++
     "-RA" ++ py_str_int (q1 * 4 / 100))%string.
Proof.
  apply (constructed_signature_closed_form "Водород"%string "H"%string 1 (lit 1008 3)
           (sample_nucleus (lit 999 3)) (sample_electrons "1s¹"%string (lit 13598 3)));
    vm_compute; [reflexivity|split; [discriminate|reflexivity]].
Defined.

(** X8: [get_total_energy_quanta] of a constructed element with
    [0 <= t < 2^40] quanta, for the nine energies in [EnergyType] order:
    the five Outer categories come from the Outer level alone,
    [MICRO_GRAVITY] and [THERMONUCLEAR] add a Middle and an Inner share,
    [MACRO_GRAVITY] is Inner only and [RADIOACTIVITY] Middle only. *)
Theorem constructed_energy_totals_closed_form (nm sy : string) (z : Z) (mass : float)
    (nuc : NucleusStructure) (el : ElectronStructure) (x : HybridElement) :
  make_HybridElement nm sy z mass nuc el = Ok x ->
  0 <= total_quanta (energy_profile x) < 2 ^ 40 ->
  let t := total_quanta (energy_profile x) in
  let q1 := t * 12 / 100 in let q2 := t * 33 / 100 in let q3 := t - q1 - q2 in
  map (get_total_energy_quanta x) ENERGY_TYPES =
    [q1 * 40 / 100; q1 * 30 / 100; q1 * 20 / 100; q1 * 6 / 100; q1 * 4 / 100;
     q2 * 20 / 100 + q3 * 25 / 100; q3 * 60 / 100;
     q2 * 50 / 100 + q3 * 15 / 100; q2 * 30 / 100].
Proof. exact (constructed_energy_totals nm sy z mass nuc el x). Qed.

Lemma constructed_energy_totals_closed_form_witness :
  let t := total_quanta (energy_profile (ok_or blank_element sample_H)) in
  let q1 := t * 12 / 100 in let q2 := t * 33 / 100 in let q3 := t - q1 - q2 in
  map (get_total_energy_quanta (ok_or blank_element sample_H)) ENERGY_TYPES =
    [q1 * 40 / 100; q1 * 30 / 100; q1 * 20 / 100; q1 * 6 / 100; q1 * 4 / 100;
     q2 * 20 / 100 + q3 * 25 / 100; q3 * 60 / 100;
     q2 * 50 / 100 + q3 * 15 / 100; q2 * 30 / 100].
Proof.
  apply (constructed_energy_totals_closed_form "Водород"%string "H"%string 1 (lit 1008 3)
           (sample_nucleus (lit 999 3)) (sample_electrons "1s¹"%string (lit 13598 3)));
    vm_compute; [reflexivity|split; [discriminate|reflexivity]].
Defined.

(** X9: for a constructed element with [0 <= t < 2^40] quanta, the
    [get_total_energy_quanta] of the nine energies sum to at most [t] and
    at least [t - 8]: no quantum is counted twice, and the floors of the
    three level distributions lose at most 4, 2 and 2 quanta. *)
Theorem constructed_energy_sum_bounds (nm sy : string) (z : Z) (mass : float)
    (nuc : NucleusStructure) (el : ElectronStructure) (x : HybridElement) :
  make_HybridElement nm sy z mass nuc el = Ok x ->
  0 <= total_quanta (energy_profile x) < 2 ^ 40 ->
  total_quanta (energy_profile x) - 8
    <= fold_left (fun acc et => acc + get_total_energy_quanta x et) ENERGY_TYPES 0
    <= total_quanta (energy_profile x).
Proof. exact (constructed_energy_sum nm sy z mass nuc el x). Qed.

Lemma constructed_energy_sum_bounds_witness :
  total_quanta (energy_profile (ok_or blank_element sample_H)) - 8
    <= fold_left (fun acc et => acc + get_total_energy_quanta (ok_or blank_element sample_H) et)
         ENERGY_TYPES 0
    <= total_quanta (energy_profile (ok_or blank_element sample_H)).
Proof.
  apply (constructed_energy_sum_bounds "Водород"%string "H"%string 1 (lit 1008 3)
           (sample_nucleus (lit 999 3)) (sample_electrons "1s¹"%string (lit 13598 3)));
    vm_compute; [reflexivity|split; [discriminate|reflexivity]].
Defined.

(** X10: [create_element] returns an element exactly for the atomic numbers
    1 to 118; that element carries the requested atomic number and the
    name, symbol, mass and configuration of its table row.  Every other
    number gives [None]. *)
Theorem create_element_exact_domain (z : Z) :
  (1 <= z <= 118 ->
   exists r x, In r ELEMENTS_DATA /\ row_z r = z /\ create_element z = Some x /\
     atomic_number x = z /\ name x = row_name r /\ symbol x = row_symbol r /\
     atomic_mass x = row_mass r /\ configuration (electrons x) = row_config r) /\
  (z < 1 \/ 118 < z -> create_element z = None).
Proof. exact (create_element_domain z). Qed.

(** X11: [build_system(max_elements)] on a fresh system never raises, and
    [self.elements] then holds the elements numbered 1 to
    [min(max_elements, 118)] in increasing order (none when
    [max_elements < 1]). *)
Theorem build_system_numbers (n : Z) :
  exists s, build_system init_system n = Ok s /\
    map atomic_number (elements s) = py_range 1 (Z.min n 118 + 1).
Proof.
  destruct (build_system_spec n) as [s [E [_ [_ Hn]]]]. exists s. auto.
Qed.

(** X12: after [build_system] on a fresh system, the clusters are keyed by
    the five element types in declaration order, each cluster lists the
    elements of its type in the order of [self.elements], and the total
    printed by [print_summary_statistics] is the number of elements. *)
Theorem build_system_clusters (n : Z) :
  exists s, build_system init_system n = Ok s /\
    clusters s = map (fun et => (et, filter (fun e => ElementType_beq (element_type e) et)
                                           (elements s))) ELEMENT_TYPES /\
    summary_total s = Z.of_nat (List.length (elements s)).
Proof.
  destruct (build_system_spec n) as [s [E [I _]]]. exists s.
  split; [exact E|]. split; [exact I|]. exact (summary_total_inv s I).
Qed.

(** X13: [analyze_energy_distribution] never raises: [total_energy] is the
    sum of the elements' [total_quanta], and [energy_totals] holds, for the
    nine energies in [EnergyType] order, the sum over the elements of
    [get_total_energy_quanta]. *)
Theorem analyze_energy_distribution_sums (s : HybridPeriodicSystem) :
  analyze_energy_distribution s =
  Ok (fold_left (fun acc elem => acc + total_quanta (energy_profile elem)) (elements s) 0,
      map (fun et => (et, fold_left (fun acc e => acc + get_total_energy_quanta e et)
                                    (elements s) 0)) ENERGY_TYPES).
Proof. exact (analyze_energy_distribution_spec s). Qed.

(** X14: for a system built by [build_system], the nine [energy_totals] of
    [analyze_energy_distribution] sum to at most [total_energy] and to at
    least [total_energy - 8 * len(self.elements)]; so the printed
    percentages never add up to more than 100. *)
Theorem analyze_built_system_bounds (n : Z) :
  exists s T totals, build_system init_system n = Ok s /\
    analyze_energy_distribution s = Ok (T, totals) /\
    T - 8 * Z.of_nat (List.length (elements s))
      <= fold_left (fun acc kv => acc + snd kv) totals 0 <= T.
Proof.
  destruct (build_system_spec n) as [s [E [_ [L _]]]].
  exists s. eexists. eexists. split; [exact E|].
  split; [exact (analyze_energy_distribution_spec s)|].
  exact (energy_totals_bound (elements s) (built_elements_created n s L)).
Qed.

(** X15: on a system built with [build_system(n)],
    [generate_comparative_visualization] selects, in the order requested and
    with repetitions, the factory's element for each requested number in
    [1 .. min(n, 118)] and skips every other number; so the "not found"
    branch is taken exactly when no requested number is in that range. *)
Theorem comparative_selection_built (n : Z) (zs : list Z) :
  exists s, build_system init_system n = Ok s /\
    elements_to_compare s zs =
      flat_map (fun z => if (1 <=? z) && (z <=? n)
                         then match create_element z with Some e => [e] | None => [] end
                         else []) zs /\
    map atomic_number (elements_to_compare s zs)
      = filter (fun z => (1 <=? z) && (z <=? Z.min n 118)) zs.
Proof.
  destruct (build_system_spec n) as [s [E [_ [L _]]]].
  exists s. split; [exact E|]. exact (elements_to_compare_built n s zs L).
Qed.

End Extras.
